(** * Weekly-summary cron route (apps/web/app/api/cron/weekly_summary/route.ts)

    A shallow embedding of the [POST] handler and of [getProducts], with the
    JavaScript values the handler computes on: IEEE-754 binary64 numbers,
    JSON values with their truthiness, objects whose properties may be
    absent, and promises reduced to the way they settle. *)

From Stdlib Require Import ZArith Bool.
From Stdlib Require Import Floats.SpecFloat.
From stdpp Require Import gmap strings list fin_maps.

Set Warnings "-register-all".

Local Open Scope string_scope.
Local Open Scope Z_scope.
Local Open Scope list_scope.

(** ** JavaScript values *)

Module JS.

(** A JS number is a binary64 float: [spec_float] with 53 bits of
    precision and exponents below 1024, every operation rounded to the
    nearest, ties to even. *)
Definition number := spec_float.
Definition prec : Z := 53.
Definition emax : Z := 1024.

Definition NaN : number := S754_nan.
Definition Infinity : number := S754_infinity false.

(** The number that an integer denotes (exact below 2^53). *)
Definition ofZ (z : Z) : number := binary_normalize prec emax z 0 false.
Definition ofNat (n : nat) : number := ofZ (Z.of_nat n).

Definition div (x y : number) : number := SFdiv prec emax x y.
Definition mul (x y : number) : number := SFmul prec emax x y.

Definition isFinite (x : number) : bool :=
  match x with
  | S754_zero _ | S754_finite _ _ _ => true
  | S754_infinity _ | S754_nan => false
  end.

(** [Math.round]: the integer closest to [x], the larger one on a tie;
    NaN, the infinities and the zeros are returned as they are; a result
    that is zero keeps the sign of [x].  The value of a finite number is
    [m * 2^e], so for [e < 0] the result is
    [floor ((2 m + 2^-e) / 2^(1-e))], computed exactly in [Z]. *)
Definition Math_round (x : number) : number :=
  match x with
  | S754_finite s m e =>
      if 0 <=? e then x
      else
        let sm := if s then Z.neg m else Z.pos m in
        let r := (2 * sm + 2 ^ (- e)) / 2 ^ (1 - e) in
        binary_normalize prec emax r 0 s
  | _ => x
  end.

(** JSON values, as stored in a [Json] column. *)
Inductive json :=
| JNull
| JBool (b : bool)
| JNum (x : number)
| JStr (s : string)
| JArr (items : list json).

(** [ToBoolean] on a JSON value: null, false, the zeros, NaN and the empty
    string are falsy, everything else (every array too) is truthy. *)
Definition truthy (v : json) : bool :=
  match v with
  | JNull => false
  | JBool b => b
  | JNum (S754_zero _) | JNum S754_nan => false
  | JNum _ => true
  | JStr s => negb (String.eqb s "")
  | JArr _ => true
  end.

(** What a property read can yield: a stored JSON value, or a built-in
    that the object inherits from [Object.prototype]. *)
Inductive value :=
| Json (v : json)
| Builtin (name : string).

(** The properties of [Object.prototype]: functions, and the accessor
    [__proto__], which yields the prototype object. *)
Definition objectPrototype : list string :=
  [ "constructor"; "hasOwnProperty"; "isPrototypeOf"; "propertyIsEnumerable";
    "toLocaleString"; "toString"; "valueOf"; "__proto__";
    "__defineGetter__"; "__defineSetter__"; "__lookupGetter__"; "__lookupSetter__" ].

Definition inherited (key : string) : bool :=
  existsb (String.eqb key) objectPrototype.

(** [obj[key]] on an object parsed from JSON: an own property first, then
    the prototype; [None] is [undefined]. *)
Definition get (obj : gmap string json) (key : string) : option value :=
  match obj !! key with
  | Some v => Some (Json v)
  | None => if inherited key then Some (Builtin key) else None
  end.

(** [ToBoolean] on what a property read yields: functions and objects are
    truthy. *)
Definition toBoolean (v : value) : bool :=
  match v with
  | Json j => truthy j
  | Builtin _ => true
  end.

(** [v || null] for a property read [v]. *)
Definition or_null (v : option value) : value :=
  match v with
  | Some x => if toBoolean x then x else Json JNull
  | None => Json JNull
  end.

(** A [Date] is its time value, milliseconds since the epoch. *)
Definition Date := Z.
Definition msPerDay : Z := 86400000.

(** The local time zone of the process: the offset of local time from UTC
    in milliseconds, at a time value ([LocalTZA(t, true)]) and at a local
    time ([LocalTZA(t, false)]). *)
Record TimeZone := {
  offsetAtUTC : Z -> Z;
  offsetAtLocal : Z -> Z
}.

Definition utc : TimeZone :=
  {| offsetAtUTC := fun _ => 0; offsetAtLocal := fun _ => 0 |}.

(** [d.setDate(d.getDate() - n)]: the time value is taken to local time,
    the day number is moved back by [n] with the time within the day kept
    ([MakeDate(MakeDay(year, month, date - n), TimeWithinDay)]), and the
    result is taken back to UTC with the offset in force at that local
    time. *)
Definition setDate_back (zone : TimeZone) (d : Date) (n : Z) : Date :=
  let localTime := d + offsetAtUTC zone d in
  let moved := localTime - n * msPerDay in
  moved - offsetAtLocal zone moved.

End JS.

Coercion JS.Json : JS.json >-> JS.value.


(** ** The data the query reads *)

(** [User.notificationSettings] is a JSON column: [None] stands for a value
    that is null or undefined, and inside it [weeklySummary] is an object
    keyed by product id that may be absent as well. *)
Record NotificationSettings := {
  weeklySummary : option (gmap string JS.json)
}.

Record User := {
  email : string;
  notificationSettings : option NotificationSettings
}.

Record Membership := { user : User }.

Record Team := { memberships : list Membership }.

Record Question := {
  question_id : string;
  headline : string
}.

Record Response := {
  response_id : string;
  createdAt : JS.Date;
  updatedAt : JS.Date;
  finished : bool;
  data : gmap string JS.json
}.

Record Display := { display_status : option string }.

(** Rows as the tables hold them. *)
Record SurveyRow := {
  row_survey_id : string;
  row_survey_name : string;
  row_status : string;
  row_questions : list Question;
  row_responses : list Response;
  row_displays : list Display
}.

Record EnvironmentRow := {
  row_environment_id : string;
  row_type : string;
  row_surveys : list SurveyRow
}.

Record ProductRow := {
  row_product_id : string;
  row_product_name : string;
  row_environments : list EnvironmentRow;
  row_team : Team
}.

(** Objects as [findMany] returns them: only the selected properties exist.
    A property that the handler reads although the [select] leaves it out is
    kept as an [option] that the query fills with [None] ([undefined]). *)
Record Survey := {
  survey_id : option string;
  survey_name : string;
  status : string;
  questions : list Question;
  responses : list Response;
  displays : list Display
}.

Record Environment := {
  environment_id : string;
  environment_surveys : list Survey
}.

Record Product := {
  product_id : string;
  product_name : option string;
  environments : list Environment;
  team : Team
}.

(** ** The interfaces of route.ts *)

Record Insights := {
  totalCompletedResponses : nat;
  totalDisplays : nat;
  totalResponses : nat;
  completionRate : JS.number;
  numLiveSurvey : nat
}.

Record ResponseEntry := {
  entry_headline : string;
  answer : JS.value
}.

Record SurveyData := {
  id : option string;
  name : string;
  surveyData_responses : list ResponseEntry
}.

Record NotificationResponse := {
  environmentId : string;
  currentDate : JS.Date;
  lastWeekDate : JS.Date;
  productName : option string;
  surveys : list SurveyData;
  insights : Insights
}.

(** ** getProducts: the query *)

(** [responses: { where: { createdAt: { gte: sevenDaysAgo } } }] *)
Definition selectResponses (sevenDaysAgo : JS.Date) (rs : list Response) : list Response :=
  List.filter (fun r => sevenDaysAgo <=? createdAt r) rs.

(** The survey [select] lists name, questions, status, responses and
    displays; [id] is not among them. *)
Definition selectSurvey (sevenDaysAgo : JS.Date) (s : SurveyRow) : Survey :=
  {| survey_id := None;
     survey_name := row_survey_name s;
     status := row_status s;
     questions := row_questions s;
     responses := selectResponses sevenDaysAgo (row_responses s);
     displays := row_displays s |}.

(** [surveys: { where: { status: { not: "draft" } } }] *)
Definition selectEnvironment (sevenDaysAgo : JS.Date) (e : EnvironmentRow) : Environment :=
  {| environment_id := row_environment_id e;
     environment_surveys :=
       map (selectSurvey sevenDaysAgo)
           (List.filter (fun s => negb (String.eqb (row_status s) "draft")) (row_surveys e)) |}.

(** The product [select] lists id, environments (those of type
    "production") and team; [name] is not among them. *)
Definition selectProduct (sevenDaysAgo : JS.Date) (p : ProductRow) : Product :=
  {| product_id := row_product_id p;
     product_name := None;
     environments :=
       map (selectEnvironment sevenDaysAgo)
           (List.filter (fun e => String.eqb (row_type e) "production") (row_environments p));
     team := row_team p |}.

Definition findMany (sevenDaysAgo : JS.Date) (db : list ProductRow) : list Product :=
  map (selectProduct sevenDaysAgo) db.

(** ** Aggregation: the pure part of the loop body *)

(** The callback of [teamMembers.filter]:
    [notificationSettings?.weeklySummary && notificationSettings.weeklySummary[product.id]],
    taken for its truthiness. *)
Definition weeklySummaryEnabled (product : Product) (member : Membership) : bool :=
  match notificationSettings (user member) with
  | None => false
  | Some settings =>
      match weeklySummary settings with
      | None => false
      | Some flags =>
          match JS.get flags (product_id product) with
          | None => false
          | Some flag => JS.toBoolean flag
          end
      end
  end.

Definition teamMembersWithNotificationEnabled (product : Product) : list Membership :=
  List.filter (weeklySummaryEnabled product) (memberships (team product)).

Definition initialInsights : Insights :=
  {| totalCompletedResponses := 0;
     totalDisplays := 0;
     totalResponses := 0;
     completionRate := JS.ofNat 0;
     numLiveSurvey := 0 |}.

(** The object literal [{ headline: headline, answer }] built for one
    response and one question. *)
Definition entryOf (response : Response) (question : Question) : ResponseEntry :=
  {| entry_headline := headline question;
     answer := JS.or_null (JS.get (data response) (question_id question)) |}.

(** The two inner loops: for each response, for each question, push the
    entry onto [surveyData.responses]. *)
Definition pushAnswer (response : Response) (acc : list ResponseEntry) (question : Question)
  : list ResponseEntry :=
  acc ++ [entryOf response question].

Definition pushResponse (survey : Survey) (acc : list ResponseEntry) (response : Response)
  : list ResponseEntry :=
  foldl (pushAnswer response) acc (questions survey).

Definition buildSurveyData (survey : Survey) : SurveyData :=
  {| id := survey_id survey;
     name := survey_name survey;
     surveyData_responses := foldl (pushResponse survey) [] (responses survey) |}.

(** [Math.round((totalCompletedResponses / totalDisplays) * 100)] *)
Definition computeCompletionRate (completed shown : nat) : JS.number :=
  JS.Math_round (JS.mul (JS.div (JS.ofNat completed) (JS.ofNat shown)) (JS.ofNat 100)).

(** The counters are integers far below 2^53, where [+=] on numbers is
    exact: they are kept in [nat] and turned into numbers at the division. *)
Definition completedResponses (survey : Survey) : nat :=
  length (List.filter finished (responses survey)).

Definition shownDisplays (survey : Survey) : nat := length (displays survey).

Definition updateInsights (i : Insights) (survey : Survey) : Insights :=
  let numLive := if String.eqb (status survey) "live" then S (numLiveSurvey i) else numLiveSurvey i in
  let completed := (totalCompletedResponses i + completedResponses survey)%nat in
  let shown := (totalDisplays i + shownDisplays survey)%nat in
  let answered := (totalResponses i + length (responses survey))%nat in
  {| totalCompletedResponses := completed;
     totalDisplays := shown;
     totalResponses := answered;
     completionRate := computeCompletionRate completed shown;
     numLiveSurvey := numLive |}.

(** One turn of the loop over [environment.surveys]. *)
Definition surveyStep (st : Insights * list SurveyData) (survey : Survey)
  : Insights * list SurveyData :=
  (updateInsights (fst st) survey, snd st ++ [buildSurveyData survey]).

Definition aggregate (environment : Environment) : Insights * list SurveyData :=
  foldl surveyStep (initialInsights, []) (environment_surveys environment).

(** ** Effects of a run *)

(** The first argument of [sendNoLiveSurveyNotificationEmail]: an address in
    the loop over the members, the list of memberships in the call after it. *)
Inductive Recipient :=
| ToAddress (address : string)
| ToMembers (members : list Membership).

Inductive Email :=
| NoLiveSurveyNotification (to : Recipient) (product : Product)
| WeeklySummaryNotification (to : list Membership) (notificationResponse : NotificationResponse).

(** What a run does to the outside: the query and the calls of the two
    send functions, in the order they happen. *)
Inductive Event :=
| Query (sevenDaysAgo : JS.Date)
| Send (email : Email).

(** A promise is the call that made it, the way it settles, and when:
    [settledAt] is 0 for a promise that has settled by the time
    [Promise.all] subscribes to it, and otherwise numbers the later turn of
    the event loop in which it settles. *)
Inductive Settled :=
| Fulfilled
| Rejected (reason : string).

Record Promise := {
  call : Email;
  settles : Settled;
  settledAt : nat
}.

Inductive Exception :=
| TypeError (message : string)
| Rejection (reason : string)
| QueryFailure (error : string).

(** What [prisma.product.findMany] meets: tables it can read, or a failure
    that rejects the query.  A list of rows stands for a database that
    answers. *)
Inductive Database :=
| Resolves (rows : list ProductRow)
| Rejects (error : string).

#[warning="-uniform-inheritance"]
Coercion Resolves : list >-> Database.

Inductive Result (A : Type) :=
| Ok (value : A)
| Throw (e : Exception).

Arguments Ok {A} value.
Arguments Throw {A} e.

(** [reads] counts the [new Date()] evaluated so far. *)
Record World := {
  reads : nat;
  trace : list Event
}.

Definition M (A : Type) : Type := World -> Result A * World.

Definition ret {A} (a : A) : M A := fun w => (Ok a, w).

Definition throw {A} (e : Exception) : M A := fun w => (Throw e, w).

Definition bind {A B} (m : M A) (k : A -> M B) : M B :=
  fun w =>
    match m w with
    | (Ok a, w') => k a w'
    | (Throw e, w') => (Throw e, w')
    end.

Notation "x <- m ;; k" := (bind m (fun x => k))
  (at level 100, m at next level, right associativity).

(** [for (const x of xs) { acc = body x acc }], leaving at the first throw. *)
Fixpoint forOf {A S} (body : A -> S -> M S) (xs : list A) (acc : S) : M S :=
  match xs with
  | [] => ret acc
  | x :: rest => acc' <- body x acc ;; forOf body rest acc'
  end.

Inductive NextResponse :=
| notAuthenticatedResponse
| successResponse.

(** [Promise.all] subscribes to the promises in the order of the list and
    rejects with the first rejection that reaches it: the rejected promise
    with the least [settledAt], the earliest of the list among equals. *)
Fixpoint earliestRejected (best : option (nat * string)) (ps : list Promise)
  : option (nat * string) :=
  match ps with
  | [] => best
  | p :: rest =>
      match settles p with
      | Fulfilled => earliestRejected best rest
      | Rejected reason =>
          match best with
          | Some (turn, _) =>
              if (turn <=? settledAt p)%nat then earliestRejected best rest
              else earliestRejected (Some (settledAt p, reason)) rest
          | None => earliestRejected (Some (settledAt p, reason)) rest
          end
      end
  end.

Definition firstRejected (ps : list Promise) : option string :=
  match earliestRejected None ps with
  | Some (_, reason) => Some reason
  | None => None
  end.

Definition await_Promise_all (ps : list Promise) : M unit :=
  match firstRejected ps with
  | Some reason => throw (Rejection reason)
  | None => ret tt
  end.

(** [header !== CRON_SECRET]: the header is a string or null, the constant a
    string or undefined; they are strictly equal only as equal strings. *)
Definition strictlyEqual (header secret : option string) : bool :=
  match header, secret with
  | Some a, Some b => String.eqb a b
  | _, _ => false
  end.

(** * The styling panel (settings/lookandfeel/components/UnifiedStyling.tsx)

    The component keeps its form in [useState] cells that are filled from
    [product.styling] on the first render, runs two effects, and sends the
    cells back through [updateProductAction] in [onSave]. *)

Module UnifiedStyling.

(** [product.styling] and the [styling] object of [onSave] have the same
    shape; a property that is undefined or null is [None]. *)
Record Colors := {
  light : option string;
  dark : option string
}.

Record Arrangement := {
  linkSurveys : option string;
  inAppSurveys : option string
}.

Record Styling := {
  styling_unifiedStyling : option bool;
  styling_allowStyleOverwrite : option bool;
  styling_brandColor : option Colors;
  styling_questionColor : option Colors;
  styling_inputColor : option Colors;
  styling_inputBorderColor : option Colors;
  styling_cardBackgroundColor : option Colors;
  styling_highlightBorderColor : option Colors;
  styling_isDarkModeEnabled : option bool;
  styling_roundness : option Z;
  styling_cardArrangement : option Arrangement
}.

(** [colorDefaults] *)
Definition default_brandColor : string := "#64748b".
Definition default_questionColor : string := "#2b2524".
Definition default_inputColor : string := "#efefef".
Definition default_inputBorderColor : string := "#c0c0c0".
Definition default_cardBackgroundColor : string := "#c0c0c0".
Definition default_highlighBorderColor : string := "#64748b".

(** [previewSurvey.questions[0].id] *)
Definition firstPreviewQuestionId : string := "uvnrhtngswxlibktglanh45f".

(** The [useState] cells. *)
Record State := {
  unifiedStyling : bool;
  allowStyleOverwrite : bool;
  brandColor : string;
  questionColor : string;
  inputColor : string;
  inputBorderColor : string;
  cardBackgroundColor : string;
  allowHighlightBorder : bool;
  highlightBorderColor : string;
  isDarkMode : bool;
  brandColorDark : option string;
  questionColorDark : option string;
  inputColorDark : option string;
  inputBorderColorDark : option string;
  cardBackgroundColorDark : option string;
  highlightBorderColorDark : option string;
  roundness : Z;
  linkSurveysCardArrangement : string;
  inAppSurveysCardArrangement : string;
  activeQuestionId : option string
}.

(** [a?.b]: the property of an object that may be missing. *)
Definition chain {A B} (a : option A) (f : A -> option B) : option B :=
  match a with
  | Some x => f x
  | None => None
  end.

(** [v ?? d] *)
Definition orElse {A} (v : option A) (d : A) : A :=
  match v with
  | Some x => x
  | None => d
  end.

(** [!!v] for a string that may be missing: the empty string is falsy. *)
Definition notNot (v : option string) : bool :=
  match v with
  | Some s => negb (String.eqb s "")
  | None => false
  end.

(** The initial values of the cells, in the order of the source. *)
Definition initialState (styling : option Styling) : State :=
  {| unifiedStyling := orElse (chain styling styling_unifiedStyling) false;
     allowStyleOverwrite := orElse (chain styling styling_allowStyleOverwrite) false;
     brandColor := orElse (chain (chain styling styling_brandColor) light) default_brandColor;
     questionColor :=
       orElse (chain (chain styling styling_questionColor) light) default_questionColor;
     inputColor := orElse (chain (chain styling styling_inputColor) light) default_inputColor;
     inputBorderColor :=
       orElse (chain (chain styling styling_inputBorderColor) light) default_inputBorderColor;
     cardBackgroundColor :=
       orElse (chain (chain styling styling_cardBackgroundColor) light)
              default_cardBackgroundColor;
     allowHighlightBorder := notNot (chain (chain styling styling_highlightBorderColor) light);
     highlightBorderColor :=
       orElse (chain (chain styling styling_highlightBorderColor) light)
              default_highlighBorderColor;
     isDarkMode := orElse (chain styling styling_isDarkModeEnabled) false;
     brandColorDark := chain (chain styling styling_brandColor) dark;
     questionColorDark := chain (chain styling styling_questionColor) dark;
     inputColorDark := chain (chain styling styling_inputColor) dark;
     inputBorderColorDark := chain (chain styling styling_inputBorderColor) dark;
     cardBackgroundColorDark := chain (chain styling styling_cardBackgroundColor) dark;
     highlightBorderColorDark := chain (chain styling styling_highlightBorderColor) dark;
     roundness := orElse (chain styling styling_roundness) 8;
     linkSurveysCardArrangement :=
       orElse (chain (chain styling styling_cardArrangement) linkSurveys) "casual";
     inAppSurveysCardArrangement :=
       orElse (chain (chain styling styling_cardArrangement) inAppSurveys) "casual";
     activeQuestionId := None |}.

Definition setAllowStyleOverwrite (value : bool) (s : State) : State :=
  {| unifiedStyling := unifiedStyling s;
     allowStyleOverwrite := value;
     brandColor := brandColor s;
     questionColor := questionColor s;
     inputColor := inputColor s;
     inputBorderColor := inputBorderColor s;
     cardBackgroundColor := cardBackgroundColor s;
     allowHighlightBorder := allowHighlightBorder s;
     highlightBorderColor := highlightBorderColor s;
     isDarkMode := isDarkMode s;
     brandColorDark := brandColorDark s;
     questionColorDark := questionColorDark s;
     inputColorDark := inputColorDark s;
     inputBorderColorDark := inputBorderColorDark s;
     cardBackgroundColorDark := cardBackgroundColorDark s;
     highlightBorderColorDark := highlightBorderColorDark s;
     roundness := roundness s;
     linkSurveysCardArrangement := linkSurveysCardArrangement s;
     inAppSurveysCardArrangement := inAppSurveysCardArrangement s;
     activeQuestionId := activeQuestionId s |}.

Definition setUnifiedStyling (value : bool) (s : State) : State :=
  {| unifiedStyling := value;
     allowStyleOverwrite := allowStyleOverwrite s;
     brandColor := brandColor s;
     questionColor := questionColor s;
     inputColor := inputColor s;
     inputBorderColor := inputBorderColor s;
     cardBackgroundColor := cardBackgroundColor s;
     allowHighlightBorder := allowHighlightBorder s;
     highlightBorderColor := highlightBorderColor s;
     isDarkMode := isDarkMode s;
     brandColorDark := brandColorDark s;
     questionColorDark := questionColorDark s;
     inputColorDark := inputColorDark s;
     inputBorderColorDark := inputBorderColorDark s;
     cardBackgroundColorDark := cardBackgroundColorDark s;
     highlightBorderColorDark := highlightBorderColorDark s;
     roundness := roundness s;
     linkSurveysCardArrangement := linkSurveysCardArrangement s;
     inAppSurveysCardArrangement := inAppSurveysCardArrangement s;
     activeQuestionId := activeQuestionId s |}.

Definition setActiveQuestionId (value : option string) (s : State) : State :=
  {| unifiedStyling := unifiedStyling s;
     allowStyleOverwrite := allowStyleOverwrite s;
     brandColor := brandColor s;
     questionColor := questionColor s;
     inputColor := inputColor s;
     inputBorderColor := inputBorderColor s;
     cardBackgroundColor := cardBackgroundColor s;
     allowHighlightBorder := allowHighlightBorder s;
     highlightBorderColor := highlightBorderColor s;
     isDarkMode := isDarkMode s;
     brandColorDark := brandColorDark s;
     questionColorDark := questionColorDark s;
     inputColorDark := inputColorDark s;
     inputBorderColorDark := inputBorderColorDark s;
     cardBackgroundColorDark := cardBackgroundColorDark s;
     highlightBorderColorDark := highlightBorderColorDark s;
     roundness := roundness s;
     linkSurveysCardArrangement := linkSurveysCardArrangement s;
     inAppSurveysCardArrangement := inAppSurveysCardArrangement s;
     activeQuestionId := value |}.

(** The effect on [unifiedStyling]: [if (!unifiedStyling) setAllowStyleOverwrite(false)]. *)
Definition unifiedStylingEffect (s : State) : State :=
  if unifiedStyling s then s else setAllowStyleOverwrite false s.

(** After the first render both effects run, in the order of the source. *)
Definition mount (styling : option Styling) : State :=
  unifiedStylingEffect (setActiveQuestionId (Some firstPreviewQuestionId) (initialState styling)).

(** The [styling] object that [onSave] passes to [updateProductAction]. *)
Definition onSave (s : State) : Styling :=
  {| styling_unifiedStyling := Some (unifiedStyling s);
     styling_allowStyleOverwrite := Some (allowStyleOverwrite s);
     styling_brandColor := Some {| light := Some (brandColor s); dark := brandColorDark s |};
     styling_questionColor :=
       Some {| light := Some (questionColor s); dark := questionColorDark s |};
     styling_inputColor := Some {| light := Some (inputColor s); dark := inputColorDark s |};
     styling_inputBorderColor :=
       Some {| light := Some (inputBorderColor s); dark := inputBorderColorDark s |};
     styling_cardBackgroundColor :=
       Some {| light := Some (cardBackgroundColor s); dark := cardBackgroundColorDark s |};
     styling_highlightBorderColor :=
       if allowHighlightBorder s
       then Some {| light := Some (highlightBorderColor s);
                    dark := highlightBorderColorDark s |}
       else None;
     styling_isDarkModeEnabled := Some (isDarkMode s);
     styling_roundness := Some (roundness s);
     styling_cardArrangement :=
       Some {| linkSurveys := Some (linkSurveysCardArrangement s);
               inAppSurveys := Some (inAppSurveysCardArrangement s) |} |}.

(** What the user can do to the two switches at the top.  The switch of
    [allowStyleOverwrite] carries [disabled={!unifiedStyling}]: it changes
    nothing while unified styling is off.  A change of [unifiedStyling]
    re-runs its effect before the next event. *)
Inductive SwitchEvent :=
| ToggleUnifiedStyling (value : bool)
| ToggleAllowStyleOverwrite (value : bool).

Definition onSwitch (ev : SwitchEvent) (s : State) : State :=
  match ev with
  | ToggleUnifiedStyling value =>
      if Bool.eqb value (unifiedStyling s) then s
      else unifiedStylingEffect (setUnifiedStyling value s)
  | ToggleAllowStyleOverwrite value =>
      if unifiedStyling s then setAllowStyleOverwrite value s else s
  end.

(** An example of a stored styling: a highlight border that has only a
    dark colour, and style overwriting allowed without unified styling. *)
Definition onlyDarkBorder : Styling :=
  {| styling_unifiedStyling := Some false;
     styling_allowStyleOverwrite := Some true;
     styling_brandColor := Some {| light := Some "#00e6ca"; dark := None |};
     styling_questionColor := None;
     styling_inputColor := None;
     styling_inputBorderColor := None;
     styling_cardBackgroundColor := None;
     styling_highlightBorderColor := Some {| light := None; dark := Some "#111111" |};
     styling_isDarkModeEnabled := None;
     styling_roundness := Some 0;
     styling_cardArrangement := None |}.

(** A stored styling with unified styling on and a red highlight border. *)
Definition redBorder : Styling :=
  {| styling_unifiedStyling := Some true;
     styling_allowStyleOverwrite := Some true;
     styling_brandColor := None;
     styling_questionColor := Some {| light := Some "#000000"; dark := Some "#ffffff" |};
     styling_inputColor := None;
     styling_inputBorderColor := None;
     styling_cardBackgroundColor := None;
     styling_highlightBorderColor := Some {| light := Some "#ff0000"; dark := None |};
     styling_isDarkModeEnabled := Some true;
     styling_roundness := None;
     styling_cardArrangement := Some {| linkSurveys := Some "straight"; inAppSurveys := None |} |}.

End UnifiedStyling.


(** ** Vocabulary for the facts about the query and the emails *)

(** The survey rows the query keeps, the responses it keeps of one of them. *)
Definition keptSurveys (e : EnvironmentRow) : list SurveyRow :=
  List.filter (fun s => negb (String.eqb (row_status s) "draft")) (row_surveys e).

Definition keptEnvironments (p : ProductRow) : list EnvironmentRow :=
  List.filter (fun e => String.eqb (row_type e) "production") (row_environments p).

Definition inWindow (sevenDaysAgo : JS.Date) (s : SurveyRow) : list Response :=
  List.filter (fun r => sevenDaysAgo <=? createdAt r) (row_responses s).


(** The send events among a list of events. *)
Definition sendsOf (events : list Event) : list Email :=
  flat_map (fun ev => match ev with Send e => [e] | Query _ => [] end) events.

Definition queriesOf (events : list Event) : list JS.Date :=
  flat_map (fun ev => match ev with Query t => [t] | Send _ => [] end) events.


(** The events that a run started in [w] and ended in [w'] added. *)
Definition newEvents (w w' : World) : list Event :=
  drop (length (trace w)) (trace w').


(** ** The specification's wording, for comparison *)

(** "its answer is that response's data-map value for the question's id,
    defaulting to null exactly when the value is missing from the map" *)
Definition spec_answer (response : Response) (question : Question) : JS.value :=
  match data response !! question_id question with
  | Some v => JS.Json v
  | None => JS.Json JS.JNull
  end.

Definition spec_surveyRecord (survey : Survey) : list ResponseEntry :=
  flat_map
    (fun response =>
       map (fun question =>
              {| entry_headline := headline question;
                 answer := spec_answer response question |})
           (questions survey))
    (responses survey).

(** "round(100 × finished / displays)" over the integers: the integer
    nearest to [100 * finished / displays], which is
    [floor ((200 * finished + displays) / (2 * displays))] with a tie going
    up. *)
Definition spec_roundedPercentage (finishedSum displaySum : nat) : Z :=
  (200 * Z.of_nat finishedSum + Z.of_nat displaySum) / (2 * Z.of_nat displaySum).

(** ** Sample data *)

Module Sample.

Definition flags (settings : list (string * bool)) : NotificationSettings :=
  {| weeklySummary :=
       Some (foldr (fun kv m => <[kv.1 := JS.JBool kv.2]> m) ∅ settings) |}.

Definition alice : Membership :=
  {| user := {| email := "alice@example.com";
                notificationSettings :=
                  Some (flags [("prod_1", true); ("prod_2", true); ("prod_4", true)]) |} |}.

Definition bob : Membership :=
  {| user := {| email := "bob@example.com"; notificationSettings := None |} |}.

Definition carol : Membership :=
  {| user := {| email := "carol@example.com";
                notificationSettings := Some {| weeklySummary := None |} |} |}.

Definition dave : Membership :=
  {| user := {| email := "dave@example.com";
                notificationSettings := Some (flags [("prod_1", true); ("prod_3", false)]) |} |}.

Definition nps : Question :=
  {| question_id := "nps"; headline := "How likely are you to recommend us?" |}.

Definition now : JS.Date := 1700000000000.

Definition clock (n : nat) : JS.Date := now + Z.of_nat n.

Definition answered (score : Z) (done : bool) : Response :=
  {| response_id := "resp";
     createdAt := now - JS.msPerDay;
     updatedAt := now - JS.msPerDay;
     finished := done;
     data := <["nps" := JS.JNum (JS.ofZ score)]> ∅ |}.

Definition shown : Display := {| display_status := Some "seen" |}.

Definition surveyRow (finishedCount displayCount : nat) : SurveyRow :=
  {| row_survey_id := "survey_1";
     row_survey_name := "NPS";
     row_status := "inProgress";
     row_questions := [nps];
     row_responses := replicate finishedCount (answered 9 true);
     row_displays := replicate displayCount shown |}.

Definition production (rows : list SurveyRow) : EnvironmentRow :=
  {| row_environment_id := "env_prod"; row_type := "production"; row_surveys := rows |}.

Definition development : EnvironmentRow :=
  {| row_environment_id := "env_dev"; row_type := "development"; row_surveys := [] |}.

Definition productRow (productId productName : string)
  (envs : list EnvironmentRow) (members : list Membership) : ProductRow :=
  {| row_product_id := productId;
     row_product_name := productName;
     row_environments := envs;
     row_team := {| memberships := members |} |}.

(** A product with one subscribed member and no response in the week. *)
Definition quiet : ProductRow :=
  productRow "prod_2" "Quiet" [production [surveyRow 0 3]] [alice; bob].

(** A product with two subscribed members, 4 finished responses, 10 displays. *)
Definition busy : ProductRow :=
  productRow "prod_1" "Acme" [production [surveyRow 4 10]] [alice; bob; dave].

(** A product nobody subscribed to, and without a production environment. *)
Definition unwatched : ProductRow :=
  productRow "prod_3" "Unwatched" [development] [bob; carol; dave].

(** A subscribed product that has no production environment. *)
Definition homeless : ProductRow := productRow "prod_4" "Homeless" [development] [alice].

(** A survey whose only response answers the score question with 0. *)
Definition zeroScore : Survey :=
  {| survey_id := None;
     survey_name := "NPS";
     status := "inProgress";
     questions := [nps];
     responses := [answered 0 true];
     displays := [shown] |}.

(** A survey with 23 finished responses and 40 displays. *)
Definition tied : Survey := selectSurvey 0 (surveyRow 23 40).

(** The spec's example: 4 of 10 in one survey, 6 of 10 in the next. *)
Definition surveyA : Survey := selectSurvey 0 (surveyRow 4 10).
Definition surveyB : Survey := selectSurvey 0 (surveyRow 6 10).

Definition secret : option string := Some "s3cret".

Definition sevenDaysAgo : JS.Date := JS.setDate_back JS.utc now 7.

Definition quietProduct : Product := selectProduct sevenDaysAgo quiet.

Definition busyProduct : Product := selectProduct sevenDaysAgo busy.

Definition busyEnvironment : Environment :=
  selectEnvironment sevenDaysAgo (production [surveyRow 4 10]).

Definition quietEnvironment : Environment :=
  selectEnvironment sevenDaysAgo (production [surveyRow 0 3]).

(** Two responses to two questions. *)
Definition why : Question :=
  {| question_id := "why"; headline := "What is the main reason for your score?" |}.

Definition promoter : Response :=
  {| response_id := "resp_1";
     createdAt := now - JS.msPerDay;
     updatedAt := now - JS.msPerDay;
     finished := true;
     data := <["nps" := JS.JNum (JS.ofZ 10)]> (<["why" := JS.JStr "It just works"]> ∅) |}.

Definition detractor : Response :=
  {| response_id := "resp_2";
     createdAt := now - 2 * JS.msPerDay;
     updatedAt := now - 2 * JS.msPerDay;
     finished := false;
     data := <["nps" := JS.JNum (JS.ofZ 3)]> (<["why" := JS.JStr "Too slow"]> ∅) |}.

Definition twoByTwo : Survey :=
  {| survey_id := None;
     survey_name := "NPS";
     status := "inProgress";
     questions := [nps; why];
     responses := [promoter; detractor];
     displays := [shown; shown; shown] |}.

(** A member whose weekly-summary map is empty, and a product whose id is
    the name of a property that every object inherits. *)
Definition erin : Membership :=
  {| user := {| email := "erin@example.com";
                notificationSettings := Some {| weeklySummary := Some ∅ |} |} |}.

Definition oddProduct : Product :=
  selectProduct sevenDaysAgo
    (productRow "constructor" "Odd" [production [surveyRow 0 3]] [erin]).

(** A question whose id names an inherited property. *)
Definition oddQuestion : Question :=
  {| question_id := "toString"; headline := "Anything else?" |}.

(** A zone that moved its clocks forward by an hour three days before
    [now]: one hour ahead of UTC before the change, two hours after. *)
Definition clocksChange : JS.Date := now - 3 * JS.msPerDay.

Definition springForward : JS.TimeZone :=
  {| JS.offsetAtUTC := fun t => if t <? clocksChange then 3600000 else 7200000;
     JS.offsetAtLocal :=
       fun t => if t <? clocksChange + 3600000 then 3600000 else 7200000 |}.

(** Two sends that both fail, the second one first. *)
Definition bothFail (n : nat) (e : Email) : Settled :=
  match n with
  | 1%nat => Rejected "mailbox full"
  | _ => Rejected "connection refused"
  end.

Definition secondFirst (n : nat) : nat :=
  match n with
  | 1%nat => 2%nat
  | _ => 1%nat
  end.

Definition start : World := {| reads := 0; trace := [] |}.

Definition allFulfilled (n : nat) (e : Email) : Settled := Fulfilled.

(** Every promise has settled by the time [Promise.all] subscribes. *)
Definition atOnce (n : nat) : nat := 0.

Definition firstFails (n : nat) (e : Email) : Settled :=
  match n with
  | 1%nat => Rejected "SMTP connection refused"
  | _ => Fulfilled
  end.

End Sample.

Section Route.

(** The constant of @formbricks/lib/constants. *)
Variable CRON_SECRET : option string.

(** The local time zone of the server process. *)
Variable zone : JS.TimeZone.

(** The time value that the n-th [new Date()] of the run yields. *)
Variable clock : nat -> JS.Date.

(** How the promise returned by the n-th event of the run settles; the send
    functions themselves live in ./email. *)
Variable settle : nat -> Email -> Settled.

(** When the promise returned by the n-th event of the run settles. *)
Variable settleTurn : nat -> nat.

Definition newDate : M JS.Date :=
  fun w => (Ok (clock (reads w)), {| reads := S (reads w); trace := trace w |}).

Definition send (e : Email) : M Promise :=
  fun w => (Ok {| call := e;
                  settles := settle (length (trace w)) e;
                  settledAt := settleTurn (length (trace w)) |},
            {| reads := reads w; trace := trace w ++ [Send e] |}).

Definition sendNoLiveSurveyNotificationEmail (to : Recipient) (product : Product) : M Promise :=
  send (NoLiveSurveyNotification to product).

Definition sendWeeklySummaryNotificationEmail
  (to : list Membership) (notificationResponse : NotificationResponse) : M Promise :=
  send (WeeklySummaryNotification to notificationResponse).

Definition getProducts (prisma : Database) : M (list Product) :=
  now <- newDate ;;
  let sevenDaysAgo := JS.setDate_back zone now 7 in
  fun w => (match prisma with
            | Resolves rows => Ok (findMany sevenDaysAgo rows)
            | Rejects error => Throw (QueryFailure error)
            end,
            {| reads := reads w; trace := trace w ++ [Query sevenDaysAgo] |}).

(** What reading [environment.surveys] throws when [environment] is
    undefined. *)
Definition readOfUndefined : Exception :=
  TypeError "Cannot read properties of undefined (reading 'surveys')".

(** The body of [for await (const product of products)]. *)
Definition productStep (product : Product) (emailSendingPromises : list Promise)
  : M (list Promise) :=
  let enabled := teamMembersWithNotificationEnabled product in
  if (length enabled =? 0)%nat then ret emailSendingPromises
  else
    match environments product !! 0%nat with
    | None => throw readOfUndefined
    | Some environment =>
        let '(insights, surveys) := aggregate environment in
        if (totalCompletedResponses insights =? 0)%nat then
          promises <-
            forOf (fun teamMember acc =>
                     p <- sendNoLiveSurveyNotificationEmail
                            (ToAddress (email (user teamMember))) product ;;
                     ret (acc ++ [p]))
                  enabled emailSendingPromises ;;
          p <- sendNoLiveSurveyNotificationEmail (ToMembers enabled) product ;;
          ret (promises ++ [p])
        else
          now <- newDate ;;
          let lastWeekDate := JS.setDate_back zone now 7 in
          currentDate <- newDate ;;
          let notificationResponse :=
            {| environmentId := environment_id environment;
               currentDate := currentDate;
               lastWeekDate := lastWeekDate;
               productName := product_name product;
               surveys := surveys;
               insights := insights |} in
          p <- sendWeeklySummaryNotificationEmail enabled notificationResponse ;;
          ret (emailSendingPromises ++ [p])
    end.

Definition POST (prisma : Database) (x_api_key : option string) : M NextResponse :=
  if negb (strictlyEqual x_api_key CRON_SECRET) then ret notAuthenticatedResponse
  else
    products <- getProducts prisma ;;
    emailSendingPromises <- forOf productStep products [] ;;
    _ <- await_Promise_all emailSendingPromises ;;
    ret successResponse.

(** The products that a run started in [w] gets from the query, and the
    world once the query is made. *)
Definition productsAt (prisma : list ProductRow) (w : World) : list Product :=
  findMany (JS.setDate_back zone (clock (reads w)) 7) prisma.

Definition queried (w : World) : World :=
  {| reads := S (reads w);
     trace := trace w ++ [Query (JS.setDate_back zone (clock (reads w)) 7)] |}.

(** The promises that a run of sends makes, the first of them being event
    number [start] of the run. *)
Fixpoint issue (start : nat) (emails : list Email) : list Promise :=
  match emails with
  | [] => []
  | e :: rest =>
      {| call := e; settles := settle start e; settledAt := settleTurn start |}
      :: issue (S start) rest
  end.

(** The emails of the branch taken when nothing was completed. *)
Definition noLiveSurveyEmails (product : Product) : list Email :=
  map (fun teamMember => NoLiveSurveyNotification (ToAddress (email (user teamMember))) product)
      (teamMembersWithNotificationEnabled product)
  ++ [NoLiveSurveyNotification (ToMembers (teamMembersWithNotificationEnabled product)) product].

(** The payload of the other branch, built from the two clock readings. *)
Definition notificationResponseOf
  (product : Product) (environment : Environment) (firstRead : nat) : NotificationResponse :=
  {| environmentId := environment_id environment;
     currentDate := clock (S firstRead);
     lastWeekDate := JS.setDate_back zone (clock firstRead) 7;
     productName := product_name product;
     surveys := snd (aggregate environment);
     insights := fst (aggregate environment) |}.

(** A product that has recipients but no production environment. *)
Definition lacksEnvironment (product : Product) : Prop :=
  teamMembersWithNotificationEnabled product <> [] /\ environments product = [].

(** The insights once the first [i] surveys of the loop are folded in, and
    the sums over those surveys. *)
Definition insightsAfter (i : nat) (surveyList : list Survey) : Insights :=
  fst (foldl surveyStep (initialInsights, []) (take i surveyList)).

Definition finishedThrough (i : nat) (surveyList : list Survey) : nat :=
  sum_list_with completedResponses (take i surveyList).

Definition displaysThrough (i : nat) (surveyList : list Survey) : nat :=
  sum_list_with shownDisplays (take i surveyList).


(** What the loop body may send for a product: always on behalf of a
    non-empty list of recipients; the "no live survey" email only when the
    first environment counts no completed response, to the address of a
    recipient or to the list of them; the weekly summary only when it
    counts one, to the list, with the payload of two consecutive clock
    readings made from reading number [earliest] on. *)
Definition sentFor (earliest : nat) (product : Product) (e : Email) : Prop :=
  teamMembersWithNotificationEnabled product <> []
  /\ match e with
     | NoLiveSurveyNotification to p =>
         p = product
         /\ (exists environment others,
               environments product = environment :: others
               /\ totalCompletedResponses (fst (aggregate environment)) = 0%nat)
         /\ match to with
            | ToAddress address =>
                exists member,
                  In member (teamMembersWithNotificationEnabled product)
                  /\ email (user member) = address
            | ToMembers members => members = teamMembersWithNotificationEnabled product
            end
     | WeeklySummaryNotification members notificationResponse =>
         members = teamMembersWithNotificationEnabled product
         /\ exists environment others r,
              environments product = environment :: others
              /\ (earliest <= r)%nat
              /\ notificationResponse = notificationResponseOf product environment r
              /\ totalCompletedResponses (fst (aggregate environment)) <> 0%nat
     end.


(** ** Facts about the aggregation *)

Lemma foldl_pushAnswer response questions acc :
  foldl (pushAnswer response) acc questions = acc ++ map (entryOf response) questions.
Proof.
  revert acc. induction questions as [|q qs IH]; intros acc; simpl.
  - by rewrite app_nil_r.
  - rewrite IH. unfold pushAnswer. by rewrite <- app_assoc.
Qed.

Lemma foldl_pushResponse survey responses acc :
  foldl (pushResponse survey) acc responses
  = acc ++ flat_map (fun response => map (entryOf response) (questions survey)) responses.
Proof.
  revert acc. induction responses as [|r rs IH]; intros acc; simpl.
  - by rewrite app_nil_r.
  - rewrite IH. unfold pushResponse. rewrite foldl_pushAnswer. by rewrite <- app_assoc.
Qed.

Lemma length_flat_map_const {A B} (f : A -> list B) (n : nat) (l : list A) :
  (forall x, length (f x) = n) -> length (flat_map f l) = (length l * n)%nat.
Proof.
  intros Hf. induction l as [|x l IH]; simpl; [done|].
  rewrite length_app, Hf, IH. done.
Qed.

Lemma get_cases (obj : gmap string JS.json) (key : string) :
  (exists v, obj !! key = Some v /\ JS.get obj key = Some (JS.Json v))
  \/ (obj !! key = None /\ JS.inherited key = true
      /\ JS.get obj key = Some (JS.Builtin key))
  \/ (obj !! key = None /\ JS.inherited key = false /\ JS.get obj key = None).
Proof.
  unfold JS.get. destruct (obj !! key) as [v|].
  - left. by exists v.
  - destruct (JS.inherited key); [right; by left|right; by right].
Qed.

(** C4 (as amended): the record of a survey holds one entry per response
    and question, responses outermost, so [|responses| * |questions|] of
    them; an entry carries the question's headline, and its answer is what
    [response.data[question.id]] yields when that is truthy, and null
    otherwise: the stored value when it is truthy; null when the stored
    value is falsy (the empty string, the number 0, false, null); for an
    id that is not stored, null, unless the id names a property of
    [Object.prototype], whose inherited built-in is then the answer. *)
Theorem surveyData_cross_product (survey : Survey) :
  surveyData_responses (buildSurveyData survey)
  = flat_map (fun response => map (entryOf response) (questions survey)) (responses survey)
  /\ length (surveyData_responses (buildSurveyData survey))
     = (length (responses survey) * length (questions survey))%nat
  /\ forall response question,
       entry_headline (entryOf response question) = headline question
       /\ (answer (entryOf response question) = JS.JNull
           <-> (exists v, data response !! question_id question = Some v
                          /\ JS.truthy v = false)
               \/ (data response !! question_id question = None
                   /\ JS.inherited (question_id question) = false))
       /\ (forall v, data response !! question_id question = Some v ->
                     JS.truthy v = true -> answer (entryOf response question) = v)
       /\ (data response !! question_id question = None ->
           JS.inherited (question_id question) = true ->
           answer (entryOf response question) = JS.Builtin (question_id question)).
Proof.
  assert (Hrec : surveyData_responses (buildSurveyData survey)
                 = flat_map (fun response => map (entryOf response) (questions survey))
                            (responses survey)).
  { unfold buildSurveyData; simpl. by rewrite foldl_pushResponse. }
  split; [exact Hrec|]. split.
  - rewrite Hrec. apply length_flat_map_const. intros r. by rewrite length_map.
  - intros response question. split; [done|]. unfold entryOf; simpl.
    destruct (get_cases (data response) (question_id question))
      as [(x & Hx & ->)|[(Hnone & Hin & ->)|(Hnone & Hin & ->)]]; simpl.
    + destruct (JS.truthy x) eqn:Htruthy.
      * split; [|split].
        -- split.
           ++ intros [= ->]. discriminate Htruthy.
           ++ intros [(v & Hv & Hfalse)|[Hn _]]; congruence.
        -- intros v Hv _. congruence.
        -- intros Hn. congruence.
      * split; [|split].
        -- split; [intros _; left; by exists x|done].
        -- intros v Hv Htrue. congruence.
        -- intros Hn. congruence.
    + split; [|split].
      * split; [done|]. intros [(v & Hv & _)|[_ Hout]]; congruence.
      * intros v Hv. congruence.
      * done.
    + split; [|split].
      * split; [intros _; by right|done].
      * intros v Hv. congruence.
      * intros _ Hyes. congruence.
Qed.

(** C7 (as amended): a member is among the recipients of a product exactly
    when the member belongs to the team, the notification settings hold a
    weekly-summary map, and [weeklySummary[product.id]] is truthy: a truthy
    flag stored under the product's id, or, with no flag stored, an id that
    names a property of [Object.prototype].  Absent settings and an absent
    weekly-summary map leave the member out; an absent key leaves the
    member out unless the id names such a property. *)
Theorem recipient_iff_enabled (product : Product) (member : Membership) :
  (In member (teamMembersWithNotificationEnabled product)
   <-> In member (memberships (team product))
       /\ exists settings flags,
            notificationSettings (user member) = Some settings
            /\ weeklySummary settings = Some flags
            /\ ((exists flag, flags !! product_id product = Some flag
                              /\ JS.truthy flag = true)
                \/ (flags !! product_id product = None
                    /\ JS.inherited (product_id product) = true)))
  /\ (forall address,
        weeklySummaryEnabled product
          {| user := {| email := address; notificationSettings := None |} |} = false)
  /\ (forall address,
        weeklySummaryEnabled product
          {| user := {| email := address;
                        notificationSettings := Some {| weeklySummary := None |} |} |} = false)
  /\ (forall address flags,
        weeklySummaryEnabled product
          {| user := {| email := address;
                        notificationSettings :=
                          Some {| weeklySummary := Some (delete (product_id product) flags) |} |} |}
        = JS.inherited (product_id product)).
Proof.
  split; [|split; [done|split; [done|]]].
  - unfold teamMembersWithNotificationEnabled. rewrite filter_In.
    unfold weeklySummaryEnabled. split.
    + intros [Hin Hon]. split; [done|].
      destruct (notificationSettings (user member)) as [settings|]; [|done].
      destruct (weeklySummary settings) as [flags|] eqn:Hflags; [|done].
      exists settings, flags. split; [done|]. split; [done|].
      destruct (get_cases flags (product_id product))
        as [(x & Hx & Hget)|[(Hnone & Hin' & Hget)|(Hnone & Hin' & Hget)]];
        rewrite Hget in Hon; simpl in Hon.
      * left. by exists x.
      * by right.
      * done.
    + intros [Hin (settings & flags & -> & -> & Hflag)]. split; [done|].
      unfold JS.get. destruct Hflag as [(flag & -> & Htrue)|[-> ->]]; done.
  - intros address flags. unfold weeklySummaryEnabled, JS.get; simpl.
    rewrite lookup_delete_eq. by destruct (JS.inherited (product_id product)).
Qed.

(** ** Facts about numbers *)

Lemma digits2_pos_lower (p : positive) : 2 ^ (Z.pos (digits2_pos p) - 1) <= Z.pos p.
Proof.
  induction p as [p IH|p IH|]; simpl digits2_pos.
  - rewrite Pos2Z.inj_succ.
    replace (Z.succ (Z.pos (digits2_pos p)) - 1)
      with (Z.succ (Z.pos (digits2_pos p) - 1)) by lia.
    rewrite Z.pow_succ_r by lia. lia.
  - rewrite Pos2Z.inj_succ.
    replace (Z.succ (Z.pos (digits2_pos p)) - 1)
      with (Z.succ (Z.pos (digits2_pos p) - 1)) by lia.
    rewrite Z.pow_succ_r by lia. lia.
  - simpl. lia.
Qed.

Lemma shr_1_halves (mrs : shr_record) :
  0 <= shr_m mrs -> shr_m (shr_1 mrs) = shr_m mrs / 2.
Proof.
  destruct mrs as [m r s]; simpl. intros Hm.
  rewrite <- Z.div2_div.
  destruct m as [|[p|p|]|p]; try reflexivity. lia.
Qed.

Lemma iter_shr_1 (n : positive) : forall mrs,
  0 <= shr_m mrs -> shr_m (SpecFloat.iter_pos shr_1 n mrs) = shr_m mrs / 2 ^ Z.pos n.
Proof.
  induction n as [n IH|n IH|]; intros mrs Hm; simpl SpecFloat.iter_pos.
  - assert (H1 : 0 <= shr_m (shr_1 mrs))
      by (rewrite shr_1_halves by lia; apply Z.div_pos; lia).
    assert (H2 : 0 <= shr_m (SpecFloat.iter_pos shr_1 n (shr_1 mrs)))
      by (rewrite IH by lia; apply Z.div_pos; lia).
    rewrite IH by lia. rewrite IH by lia. rewrite shr_1_halves by lia.
    rewrite !Z.div_div by lia.
    f_equal. rewrite Pos2Z.inj_xI. rewrite <- Z.pow_add_r by lia.
    replace (2 * (2 ^ (Z.pos n + Z.pos n)))
      with (2 ^ (Z.succ (Z.pos n + Z.pos n))) by (rewrite Z.pow_succ_r by lia; lia).
    f_equal. lia.
  - assert (H2 : 0 <= shr_m (SpecFloat.iter_pos shr_1 n mrs))
      by (rewrite IH by lia; apply Z.div_pos; lia).
    rewrite IH by lia. rewrite IH by lia.
    rewrite !Z.div_div by lia.
    f_equal. rewrite Pos2Z.inj_xO. rewrite <- Z.pow_add_r by lia. f_equal. lia.
  - rewrite shr_1_halves by lia. reflexivity.
Qed.

Lemma shr_m_of_loc m l : shr_m (shr_record_of_loc m l) = m.
Proof. destruct l as [|[]]; reflexivity. Qed.

(** Shifting a positive mantissa down to the format never reaches zero as
    long as the exponent is not below the smallest one. *)
Lemma shr_fexp_positive (m e : Z) (l : location) :
  0 < m -> emin JS.prec JS.emax <= e ->
  0 < shr_m (fst (shr_fexp JS.prec JS.emax m e l))
  /\ emin JS.prec JS.emax <= snd (shr_fexp JS.prec JS.emax m e l).
Proof.
  intros Hm He. unfold shr_fexp, shr.
  destruct m as [|p|p]; try lia. simpl Zdigits2.
  pose proof (digits2_pos_lower p) as Hd.
  set (d := Z.pos (digits2_pos p)) in *.
  assert (Hd1 : 1 <= d) by (unfold d; lia).
  destruct (fexp JS.prec JS.emax (d + e) - e) as [|n|n] eqn:Hn; simpl fst; simpl snd.
  - rewrite shr_m_of_loc. lia.
  - rewrite iter_shr_1 by (rewrite shr_m_of_loc; lia). rewrite shr_m_of_loc.
    assert (Hle : Z.pos n <= d - 1).
    { unfold fexp, emin, JS.prec, JS.emax in *. lia. }
    split; [|lia].
    apply Z.div_str_pos. split; [apply Z.pow_pos_nonneg; lia|].
    etransitivity; [|exact Hd]. apply Z.pow_le_mono_r; lia.
  - rewrite shr_m_of_loc. lia.
Qed.

Lemma round_nearest_even_ge m l : m <= round_nearest_even m l.
Proof. destruct l as [|[]]; simpl; try lia. destruct (Z.even m); lia. Qed.

Lemma binary_round_aux_positive (sx : bool) (m e : Z) (l : location) :
  0 < m -> emin JS.prec JS.emax <= e ->
  (exists m' e', binary_round_aux JS.prec JS.emax sx m e l = S754_finite sx m' e')
  \/ binary_round_aux JS.prec JS.emax sx m e l = S754_infinity sx.
Proof.
  intros Hm He. unfold binary_round_aux.
  pose proof (shr_fexp_positive m e l Hm He) as [H1 H1e].
  destruct (shr_fexp JS.prec JS.emax m e l) as [mrs' e']. simpl in H1, H1e.
  pose proof (round_nearest_even_ge (shr_m mrs') (loc_of_shr_record mrs')) as Hr.
  pose proof (shr_fexp_positive
                (round_nearest_even (shr_m mrs') (loc_of_shr_record mrs')) e' loc_Exact
                ltac:(lia) H1e) as [H2 _].
  destruct (shr_fexp JS.prec JS.emax _ e' loc_Exact) as [mrs'' e'']. simpl in H2.
  destruct (shr_m mrs'') as [|q|q]; try lia.
  destruct (e'' <=? JS.emax - JS.prec); [left; eauto|right; reflexivity].
Qed.

(** The number of a positive count is positive: finite, or [Infinity] for a
    count beyond the range of the format. *)
Lemma ofNat_positive (n : nat) :
  n <> 0%nat ->
  (exists m e, JS.ofNat n = S754_finite false m e) \/ JS.ofNat n = S754_infinity false.
Proof.
  intros Hn. unfold JS.ofNat, JS.ofZ, binary_normalize.
  destruct (Z.of_nat n) as [|p|p] eqn:Hz; try lia.
  unfold binary_round, shl_align.
  destruct (fexp JS.prec JS.emax (Z.pos (digits2_pos p) + 0) - 0) as [|k|k] eqn:Hk.
  - apply binary_round_aux_positive; [lia|unfold emin, JS.prec, JS.emax; lia].
  - apply binary_round_aux_positive; [lia|unfold emin, JS.prec, JS.emax; lia].
  - apply binary_round_aux_positive; [lia|]. unfold fexp. lia.
Qed.

Example Math_round_ties_go_up :
  JS.Math_round (JS.div (JS.ofZ 5) (JS.ofZ 2)) = JS.ofZ 3
  /\ JS.Math_round (JS.div (JS.ofZ (-5)) (JS.ofZ 2)) = JS.ofZ (-2)
  /\ JS.Math_round (JS.div (JS.ofZ (-1)) (JS.ofZ 4)) = S754_zero true
  /\ JS.Math_round JS.NaN = JS.NaN.
Proof. repeat split; reflexivity. Qed.

Example computeCompletionRate_samples :
  computeCompletionRate 4 10 = JS.ofZ 40
  /\ computeCompletionRate 10 20 = JS.ofZ 50
  /\ computeCompletionRate 1 3 = JS.ofZ 33
  /\ computeCompletionRate 2 3 = JS.ofZ 67
  /\ computeCompletionRate 1 8 = JS.ofZ 13.
Proof. repeat split; reflexivity. Qed.

Lemma computeCompletionRate_0_0 : computeCompletionRate 0 0 = JS.NaN.
Proof. reflexivity. Qed.

Lemma computeCompletionRate_no_displays (completed : nat) :
  completed <> 0%nat -> computeCompletionRate completed 0 = JS.Infinity.
Proof.
  intros Hc. unfold computeCompletionRate.
  destruct (ofNat_positive completed Hc) as [(m & e & ->)| ->]; reflexivity.
Qed.

(** ** Facts about the running totals *)

Lemma foldl_surveyStep_totals (surveyList : list Survey) : forall st,
  totalCompletedResponses (fst (foldl surveyStep st surveyList))
  = (totalCompletedResponses (fst st) + sum_list_with completedResponses surveyList)%nat
  /\ totalDisplays (fst (foldl surveyStep st surveyList))
     = (totalDisplays (fst st) + sum_list_with shownDisplays surveyList)%nat
  /\ totalResponses (fst (foldl surveyStep st surveyList))
     = (totalResponses (fst st) + sum_list_with (fun s => length (responses s)) surveyList)%nat.
Proof.
  induction surveyList as [|s rest IH]; intros st; simpl.
  - repeat split; lia.
  - destruct (IH (surveyStep st s)) as (Hc & Hd & Hr).
    rewrite Hc, Hd, Hr. simpl. repeat split; lia.
Qed.

Lemma foldl_surveyStep_rate (surveyList : list Survey) (st : Insights * list SurveyData) :
  surveyList <> [] ->
  completionRate (fst (foldl surveyStep st surveyList))
  = computeCompletionRate
      (totalCompletedResponses (fst (foldl surveyStep st surveyList)))
      (totalDisplays (fst (foldl surveyStep st surveyList))).
Proof.
  destruct surveyList as [|s rest _] using rev_ind; [done|]. intros _.
  rewrite foldl_app. reflexivity.
Qed.

Lemma foldl_surveyStep_records (surveyList : list Survey) : forall st,
  snd (foldl surveyStep st surveyList) = snd st ++ map buildSurveyData surveyList.
Proof.
  induction surveyList as [|s rest IH]; intros st; simpl.
  - by rewrite app_nil_r.
  - rewrite IH. simpl. by rewrite <- app_assoc.
Qed.

(** C2 (as amended): once survey [i] is folded in, the counters are the
    sums over the surveys 1..i, and [completionRate] is
    [Math.round((finished / displays) * 100)] of these sums in binary64
    arithmetic, not an average of per-survey rates; with no display so far
    it is NaN when nothing is finished either and Infinity otherwise, never
    a finite number. *)
Theorem completionRate_of_running_totals (surveyList : list Survey) (i : nat) :
  (1 <= i <= length surveyList)%nat ->
  foldl surveyStep (initialInsights, []) surveyList
  = foldl surveyStep (foldl surveyStep (initialInsights, []) (take i surveyList))
          (drop i surveyList)
  /\ totalCompletedResponses (insightsAfter i surveyList) = finishedThrough i surveyList
  /\ totalDisplays (insightsAfter i surveyList) = displaysThrough i surveyList
  /\ completionRate (insightsAfter i surveyList)
     = JS.Math_round
         (JS.mul (JS.div (JS.ofNat (finishedThrough i surveyList))
                         (JS.ofNat (displaysThrough i surveyList)))
                 (JS.ofNat 100))
  /\ (displaysThrough i surveyList = 0%nat ->
      JS.isFinite (completionRate (insightsAfter i surveyList)) = false
      /\ (finishedThrough i surveyList = 0%nat ->
          completionRate (insightsAfter i surveyList) = JS.NaN)
      /\ (finishedThrough i surveyList <> 0%nat ->
          completionRate (insightsAfter i surveyList) = JS.Infinity)).
Proof.
  intros [Hlo Hhi].
  assert (Hne : take i surveyList <> []).
  { intros Hnil. apply (f_equal length) in Hnil. rewrite length_take in Hnil.
    simpl in Hnil. lia. }
  destruct (foldl_surveyStep_totals (take i surveyList) (initialInsights, []))
    as (Hc & Hd & _).
  simpl in Hc, Hd.
  assert (Hrate : completionRate (insightsAfter i surveyList)
                  = computeCompletionRate (finishedThrough i surveyList)
                                          (displaysThrough i surveyList)).
  { unfold insightsAfter, finishedThrough, displaysThrough.
    rewrite (foldl_surveyStep_rate _ _ Hne). by rewrite Hc, Hd. }
  split; [|split; [exact Hc|split; [exact Hd|split; [exact Hrate|]]]].
  - rewrite <- foldl_app. by rewrite take_drop.
  - intros Hzero. rewrite Hrate, Hzero.
    destruct (decide (finishedThrough i surveyList = 0%nat)) as [Hf|Hf].
    + rewrite Hf, computeCompletionRate_0_0. repeat split; done.
    + rewrite (computeCompletionRate_no_displays _ Hf). repeat split; done.
Qed.

(** ** Facts about the effects *)

Lemma issue_app (emails more : list Email) : forall start,
  issue start (emails ++ more) = issue start emails ++ issue (start + length emails) more.
Proof.
  induction emails as [|e rest IH]; intros start; simpl.
  - by rewrite Nat.add_0_r.
  - rewrite IH. by rewrite Nat.add_succ_r.
Qed.

Lemma map_call_issue (emails : list Email) : forall start,
  map call (issue start emails) = emails.
Proof.
  induction emails as [|e rest IH]; intros start; simpl; [done|]. by rewrite IH.
Qed.

Lemma forOf_app {A S} (body : A -> S -> M S) (xs ys : list A) : forall acc w,
  forOf body (xs ++ ys) acc w
  = match forOf body xs acc w with
    | (Ok acc', w') => forOf body ys acc' w'
    | (Throw e, w') => (Throw e, w')
    end.
Proof.
  induction xs as [|x rest IH]; intros acc w; simpl; [done|].
  unfold bind. destruct (body x acc w) as [[acc'|e] w']; [apply IH|done].
Qed.

Lemma forOf_send_each {A} (f : A -> Email) (xs : list A) : forall acc w,
  forOf (fun x acc => p <- send (f x) ;; ret (acc ++ [p])) xs acc w
  = (Ok (acc ++ issue (length (trace w)) (map f xs)),
     {| reads := reads w; trace := trace w ++ map Send (map f xs) |}).
Proof.
  induction xs as [|x rest IH]; intros acc w; simpl.
  - unfold ret. rewrite !app_nil_r. by destruct w.
  - unfold bind at 1. unfold bind at 1. unfold send at 1. unfold ret at 1.
    rewrite IH. simpl. rewrite length_app. simpl. rewrite Nat.add_1_r.
    by rewrite <- !app_assoc.
Qed.

Lemma productStep_skip (product : Product) (acc : list Promise) (w : World) :
  teamMembersWithNotificationEnabled product = [] ->
  productStep product acc w = (Ok acc, w).
Proof. intros Hnone. unfold productStep. by rewrite Hnone. Qed.

Lemma productStep_throw (product : Product) (acc : list Promise) (w : World) :
  lacksEnvironment product ->
  productStep product acc w = (Throw readOfUndefined, w).
Proof.
  intros [Hsome Hnone]. unfold productStep. rewrite Hnone.
  destruct (teamMembersWithNotificationEnabled product); done.
Qed.

Lemma productStep_no_live
  (product : Product) (environment : Environment) (others : list Environment)
  (acc : list Promise) (w : World) :
  teamMembersWithNotificationEnabled product <> [] ->
  environments product = environment :: others ->
  totalCompletedResponses (fst (aggregate environment)) = 0%nat ->
  productStep product acc w
  = (Ok (acc ++ issue (length (trace w)) (noLiveSurveyEmails product)),
     {| reads := reads w; trace := trace w ++ map Send (noLiveSurveyEmails product) |}).
Proof.
  intros Hsome Henv Hzero. unfold productStep. rewrite Henv. simpl.
  destruct (teamMembersWithNotificationEnabled product) as [|m ms] eqn:Hen; [done|].
  cbn [length Nat.eqb].
  destruct (aggregate environment) as [ins recs]. simpl in Hzero. rewrite Hzero.
  cbn [Nat.eqb]. unfold bind at 1. unfold sendNoLiveSurveyNotificationEmail.
  rewrite (forOf_send_each
             (fun teamMember => NoLiveSurveyNotification (ToAddress (email (user teamMember))) product)).
  unfold bind, send, ret. simpl. unfold noLiveSurveyEmails. rewrite Hen.
  rewrite issue_app, map_app, !length_app, !length_map. simpl.
  rewrite <- !app_assoc. simpl.
  rewrite !length_map.
  replace (length (trace w) + S (length ms))%nat with (S (length (trace w) + length ms))%nat by lia.
  done.
Qed.

Lemma productStep_summary
  (product : Product) (environment : Environment) (others : list Environment)
  (acc : list Promise) (w : World) :
  teamMembersWithNotificationEnabled product <> [] ->
  environments product = environment :: others ->
  totalCompletedResponses (fst (aggregate environment)) <> 0%nat ->
  productStep product acc w
  = (Ok (acc ++ issue (length (trace w))
                  [WeeklySummaryNotification
                     (teamMembersWithNotificationEnabled product)
                     (notificationResponseOf product environment (reads w))]),
     {| reads := S (S (reads w));
        trace := trace w
                 ++ [Send (WeeklySummaryNotification
                             (teamMembersWithNotificationEnabled product)
                             (notificationResponseOf product environment (reads w)))] |}).
Proof.
  intros Hsome Henv Hpos. unfold productStep. rewrite Henv. simpl.
  destruct (teamMembersWithNotificationEnabled product) as [|m ms] eqn:Hen; [done|].
  cbn [length Nat.eqb].
  unfold notificationResponseOf.
  destruct (aggregate environment) as [ins recs]. simpl in Hpos.
  destruct (totalCompletedResponses ins) as [|k] eqn:Hk; [done|]. cbn [Nat.eqb].
  reflexivity.
Qed.

Lemma productStep_result (product : Product) (acc : list Promise) (w : World) :
  (lacksEnvironment product /\ productStep product acc w = (Throw readOfUndefined, w))
  \/ (~ lacksEnvironment product
      /\ exists emails n,
           productStep product acc w
           = (Ok (acc ++ issue (length (trace w)) emails),
              {| reads := n; trace := trace w ++ map Send emails |})).
Proof.
  destruct (teamMembersWithNotificationEnabled product) as [|m ms] eqn:Hen.
  - right. split; [intros [H _]; by rewrite Hen in H|].
    exists [], (reads w). rewrite productStep_skip by done.
    simpl. rewrite !app_nil_r. by destruct w.
  - assert (Hsome : teamMembersWithNotificationEnabled product <> []) by by rewrite Hen.
    destruct (environments product) as [|environment others] eqn:Henv.
    + left. split; [done|]. by apply productStep_throw.
    + right. split; [intros [_ H]; by rewrite Henv in H|].
      destruct (decide (totalCompletedResponses (fst (aggregate environment)) = 0%nat)) as [Hz|Hz].
      * exists (noLiveSurveyEmails product), (reads w).
        by apply productStep_no_live with environment others.
      * eexists [_], (S (S (reads w))).
        by apply productStep_summary with others.
Qed.

(** The loop over the products either stops at the first product that has
    recipients and no production environment, or hands every promise made
    on the way to the caller. *)
Lemma forOf_productStep_cases (products : list Product) : forall acc w,
  (Exists lacksEnvironment products
   /\ exists w', forOf productStep products acc w = (Throw readOfUndefined, w'))
  \/ (Forall (fun product => ~ lacksEnvironment product) products
      /\ exists emails n,
           forOf productStep products acc w
           = (Ok (acc ++ issue (length (trace w)) emails),
              {| reads := n; trace := trace w ++ map Send emails |})).
Proof.
  induction products as [|product rest IH]; intros acc w.
  - right. split; [constructor|]. exists [], (reads w). simpl. unfold ret.
    rewrite !app_nil_r. by destruct w.
  - simpl. unfold bind.
    destruct (productStep_result product acc w) as [[Hbad ->]|[Hgood (emails & n & ->)]].
    + left. split; [by constructor|]. by exists w.
    + destruct (IH (acc ++ issue (length (trace w)) emails)
                   {| reads := n; trace := trace w ++ map Send emails |})
        as [[Hbad [w' ->]]|[Hrest (more & n' & ->)]].
      * left. split; [by apply Exists_cons_tl|]. by exists w'.
      * right. split; [by constructor|]. exists (emails ++ more), n'.
        simpl. rewrite issue_app, map_app, length_app, length_map.
        by rewrite <- !app_assoc.
Qed.

Lemma earliestRejected_None (ps : list Promise) : forall best,
  earliestRejected best ps = None
  <-> best = None /\ Forall (fun p => settles p = Fulfilled) ps.
Proof.
  induction ps as [|p rest IH]; intros best; simpl.
  - split; [intros ->; by split|by intros [-> _]].
  - destruct (settles p) eqn:Hp.
    + rewrite IH. split.
      * intros [-> Hall]. split; [done|by constructor].
      * intros [-> Hall]. split; [done|by inversion Hall].
    + split.
      * destruct best as [[turn reason']|].
        -- destruct (turn <=? settledAt p)%nat; rewrite IH; by intros [? _].
        -- rewrite IH. by intros [? _].
      * intros [_ Hall]. inversion Hall; congruence.
Qed.

Lemma earliestRejected_Some (ps : list Promise) : forall best turn reason,
  earliestRejected best ps = Some (turn, reason) ->
  best = Some (turn, reason) \/ Exists (fun p => settles p = Rejected reason) ps.
Proof.
  induction ps as [|p rest IH]; intros best turn reason; simpl.
  - intros ->. by left.
  - destruct (settles p) eqn:Hp.
    + intros H. destruct (IH _ _ _ H) as [?|?]; [by left|right; by apply Exists_cons_tl].
    + destruct best as [[turn' reason']|].
      * destruct (turn' <=? settledAt p)%nat; intros H; destruct (IH _ _ _ H) as [Hb|?].
        -- by left.
        -- right. by apply Exists_cons_tl.
        -- injection Hb as <- <-. right. by apply Exists_cons_hd.
        -- right. by apply Exists_cons_tl.
      * intros H. destruct (IH _ _ _ H) as [Hb|?].
        -- injection Hb as <- <-. right. by apply Exists_cons_hd.
        -- right. by apply Exists_cons_tl.
Qed.

Lemma firstRejected_None (ps : list Promise) :
  firstRejected ps = None <-> Forall (fun p => settles p = Fulfilled) ps.
Proof.
  unfold firstRejected.
  destruct (earliestRejected None ps) as [[turn reason]|] eqn:Hfirst.
  - split; [done|]. intros Hall.
    assert (earliestRejected None ps = None) by by apply earliestRejected_None.
    congruence.
  - split; [|done]. intros _. by apply earliestRejected_None in Hfirst as [_ ?].
Qed.

Lemma firstRejected_Some (ps : list Promise) (reason : string) :
  firstRejected ps = Some reason -> Exists (fun p => settles p = Rejected reason) ps.
Proof.
  unfold firstRejected.
  destruct (earliestRejected None ps) as [[turn reason']|] eqn:Hfirst; [|done].
  intros [= <-]. by destruct (earliestRejected_Some _ _ _ _ Hfirst).
Qed.

Lemma strictlyEqual_true (header secret : option string) :
  strictlyEqual header secret = true <-> exists v, header = Some v /\ secret = Some v.
Proof.
  destruct header as [a|], secret as [b|]; simpl.
  - rewrite String.eqb_eq. split; [intros ->; by exists b|intros (v & [= ->] & [= ->]); done].
  - split; [done|intros (v & _ & ?); done].
  - split; [done|intros (v & ? & _); done].
  - split; [done|intros (v & ? & _); done].
Qed.

Lemma POST_authenticated (prisma : list ProductRow) (x_api_key : option string) (w : World) :
  strictlyEqual x_api_key CRON_SECRET = true ->
  POST prisma x_api_key w
  = match forOf productStep (productsAt prisma w) [] (queried w) with
    | (Ok emailSendingPromises, w') =>
        match firstRejected emailSendingPromises with
        | Some reason => (Throw (Rejection reason), w')
        | None => (Ok successResponse, w')
        end
    | (Throw e, w') => (Throw e, w')
    end.
Proof.
  intros Hauth. unfold POST. rewrite Hauth. simpl.
  unfold getProducts, bind, newDate, productsAt, queried. simpl.
  destruct (forOf productStep _ [] _) as [[ps|e] w']; [|done].
  unfold await_Promise_all. by destruct (firstRejected ps).
Qed.

Lemma findMany_name_undefined (sevenDaysAgo : JS.Date) (prisma : list ProductRow) (product : Product) :
  In product (findMany sevenDaysAgo prisma) -> product_name product = None.
Proof.
  unfold findMany. rewrite in_map_iff. by intros (row & <- & _).
Qed.

(** ** The handler *)

(** C5: a product none of whose members enabled the weekly summary is
    skipped: its turn of the loop makes no promise, sends nothing and reads
    no clock, and the whole run (response, events, clock readings) is the
    run of the database without that product. *)
Theorem product_without_recipients_is_skipped
  (before : list ProductRow) (row : ProductRow) (after : list ProductRow)
  (x_api_key : option string) (w : World) :
  (forall sevenDaysAgo,
     teamMembersWithNotificationEnabled (selectProduct sevenDaysAgo row) = []) ->
  (forall sevenDaysAgo acc w',
     productStep (selectProduct sevenDaysAgo row) acc w' = (Ok acc, w'))
  /\ POST (before ++ row :: after) x_api_key w = POST (before ++ after) x_api_key w.
Proof.
  intros Hnone. split.
  - intros t acc w'. by apply productStep_skip.
  - destruct (strictlyEqual x_api_key CRON_SECRET) eqn:Hauth.
    + rewrite !POST_authenticated by done.
      unfold productsAt, findMany. rewrite !map_app. simpl map.
      rewrite !forOf_app.
      destruct (forOf productStep (map _ before) [] (queried w)) as [[acc|e] w']; [|done].
      simpl forOf. unfold bind at 1. by rewrite productStep_skip.
    + unfold POST. by rewrite Hauth.
Qed.

(** C8: when the x-api-key header is not strictly equal to CRON_SECRET the
    handler returns the unauthenticated response and leaves the world as it
    was: no query, no send, no clock reading. *)
Theorem unauthenticated_request_does_nothing
  (prisma : Database) (x_api_key : option string) (w : World) :
  strictlyEqual x_api_key CRON_SECRET = false ->
  POST prisma x_api_key w = (Ok notAuthenticatedResponse, w).
Proof. intros Hauth. unfold POST. by rewrite Hauth. Qed.

(** C9: in an authenticated run whose loop completes, every send of every
    product is behind one promise of the single list, in order; the list
    is awaited once, after the loop: the success response is returned when
    all promises fulfil, and as soon as one rejects the handler throws a
    rejection of that list instead, whatever product or recipient it
    belongs to. *)
Theorem sends_awaited_jointly
  (prisma : list ProductRow) (x_api_key : option string) (w : World)
  (emailSendingPromises : list Promise) (w' : World) :
  strictlyEqual x_api_key CRON_SECRET = true ->
  forOf productStep (productsAt prisma w) [] (queried w) = (Ok emailSendingPromises, w') ->
  trace w' = trace (queried w) ++ map (fun p => Send (call p)) emailSendingPromises
  /\ (Forall (fun p => settles p = Fulfilled) emailSendingPromises ->
      POST prisma x_api_key w = (Ok successResponse, w'))
  /\ (Exists (fun p => exists reason, settles p = Rejected reason) emailSendingPromises ->
      exists reason,
        POST prisma x_api_key w = (Throw (Rejection reason), w')
        /\ Exists (fun p => settles p = Rejected reason) emailSendingPromises).
Proof.
  intros Hauth Hloop. rewrite (POST_authenticated _ _ _ Hauth), Hloop. split; [|split].
  - destruct (forOf_productStep_cases (productsAt prisma w) [] (queried w))
      as [[_ [w'' Hthrow]]|[_ (emails & n & Hok)]]; [congruence|].
    rewrite Hok in Hloop. injection Hloop as <- <-. simpl.
    by rewrite <- (map_map call Send), map_call_issue.
  - intros Hall. apply firstRejected_None in Hall. by rewrite Hall.
  - intros Hsome. destruct (firstRejected emailSendingPromises) as [reason|] eqn:Hfirst.
    + exists reason. split; [done|]. by apply firstRejected_Some.
    + apply firstRejected_None in Hfirst. apply Exists_exists in Hsome.
      destruct Hsome as (p & Hin & reason & Hp).
      rewrite Forall_forall in Hfirst. specialize (Hfirst p Hin). congruence.
Qed.

(** C10: for every product with a recipient the loop reads
    [product.environments[0]] and then its surveys: an authenticated run
    that returns had a production environment for every such product, and
    a run over a database where one of them has none throws the TypeError
    of reading a property of undefined. *)
Theorem run_needs_production_environment
  (prisma : list ProductRow) (x_api_key : option string) (w : World) :
  strictlyEqual x_api_key CRON_SECRET = true ->
  (forall response w',
     POST prisma x_api_key w = (Ok response, w') ->
     Forall (fun product =>
               teamMembersWithNotificationEnabled product <> [] ->
               exists environment others,
                 environments product = environment :: others)
            (productsAt prisma w))
  /\ (Exists lacksEnvironment (productsAt prisma w) ->
      exists w', POST prisma x_api_key w = (Throw readOfUndefined, w')).
Proof.
  intros Hauth. rewrite (POST_authenticated _ _ _ Hauth).
  destruct (forOf_productStep_cases (productsAt prisma w) [] (queried w))
    as [[Hbad [w'' ->]]|[Hgood (emails & n & ->)]].
  - split; [done|]. intros _. by exists w''.
  - split.
    + intros _ _ _. eapply Forall_impl; [exact Hgood|].
      intros product Hnot Hsome. simpl in Hnot.
      destruct (environments product) as [|environment others] eqn:Henv.
      * exfalso. apply Hnot. by split.
      * by exists environment, others.
    + intros Hbad. exfalso. apply Exists_exists in Hbad. destruct Hbad as (p & Hin & Hp).
      rewrite Forall_forall in Hgood. by apply (Hgood p Hin).
Qed.

(** ** Every run, whether it returns or throws *)

Lemma sentFor_earlier (earliest earliest' : nat) (product : Product) (e : Email) :
  (earliest' <= earliest)%nat -> sentFor earliest product e -> sentFor earliest' product e.
Proof.
  intros Hle [Hsome He]. split; [done|].
  destruct e as [to p|members n]; [done|].
  destruct He as (Hm & environment & others & r & Henv & Hr & Hn & Hpos).
  split; [done|]. exists environment, others, r. repeat split; (done || lia).
Qed.

Lemma noLiveSurveyEmails_sentFor
  (earliest : nat) (product : Product) (environment : Environment) (others : list Environment) :
  teamMembersWithNotificationEnabled product <> [] ->
  environments product = environment :: others ->
  totalCompletedResponses (fst (aggregate environment)) = 0%nat ->
  Forall (sentFor earliest product) (noLiveSurveyEmails product).
Proof.
  intros Hsome Henv Hzero. unfold noLiveSurveyEmails. apply Forall_app. split.
  - apply List.Forall_forall. intros e Hin. apply in_map_iff in Hin.
    destruct Hin as (member & <- & Hmember).
    split; [done|]. split; [done|]. split; [by exists environment, others|].
    by exists member.
  - constructor; [|constructor].
    split; [done|]. split; [done|]. split; [by exists environment, others|done].
Qed.

(** One turn of the loop, whatever its outcome. *)
Lemma productStep_emails (product : Product) (acc : list Promise) (w : World) :
  exists emails n,
    snd (productStep product acc w)
    = {| reads := n; trace := trace w ++ map Send emails |}
    /\ (reads w <= n)%nat
    /\ Forall (sentFor (reads w) product) emails
    /\ (fst (productStep product acc w) = Ok (acc ++ issue (length (trace w)) emails)
        \/ (fst (productStep product acc w) = Throw readOfUndefined
            /\ emails = [] /\ lacksEnvironment product)).
Proof.
  destruct (teamMembersWithNotificationEnabled product) as [|m ms] eqn:Hen.
  - exists [], (reads w). rewrite productStep_skip by done. simpl.
    rewrite !app_nil_r. destruct w. repeat split; (done || by left).
  - assert (Hsome : teamMembersWithNotificationEnabled product <> []) by by rewrite Hen.
    destruct (environments product) as [|environment others] eqn:Henv.
    + exists [], (reads w). rewrite productStep_throw by done. simpl.
      rewrite app_nil_r. destruct w. repeat split; (done || by right).
    + destruct (decide (totalCompletedResponses (fst (aggregate environment)) = 0%nat)) as [Hz|Hz].
      * exists (noLiveSurveyEmails product), (reads w).
        rewrite (productStep_no_live product environment others) by done. simpl.
        repeat split; [done|by eapply noLiveSurveyEmails_sentFor|by left].
      * eexists [_], (S (S (reads w))).
        rewrite (productStep_summary product environment others) by done. simpl.
        repeat split; [lia| |by left].
        constructor; [|constructor]. split; [done|]. split; [done|].
        exists environment, others, (reads w). repeat split; (done || lia).
Qed.

(** The loop over the products, whatever its outcome: only sends are added
    to the events, each one sent for a product of the list. *)
Lemma forOf_productStep_emails (products : list Product) : forall acc w,
  exists emails n,
    snd (forOf productStep products acc w)
    = {| reads := n; trace := trace w ++ map Send emails |}
    /\ (reads w <= n)%nat
    /\ Forall (fun e => exists product, In product products /\ sentFor (reads w) product e)
              emails
    /\ (fst (forOf productStep products acc w) = Ok (acc ++ issue (length (trace w)) emails)
        \/ (fst (forOf productStep products acc w) = Throw readOfUndefined
            /\ Exists lacksEnvironment products)).
Proof.
  induction products as [|product rest IH]; intros acc w.
  - exists [], (reads w). simpl. unfold ret. simpl. rewrite !app_nil_r. destruct w.
    repeat split; (done || by left).
  - simpl forOf. unfold bind.
    destruct (productStep_emails product acc w) as (emails & n & Hw & Hn & Hfor & Hres).
    destruct (productStep product acc w) as [[acc'|e] w1]; simpl in Hw, Hres; subst w1.
    + destruct Hres as [[= ->]|[? _]]; [|done].
      destruct (IH (acc ++ issue (length (trace w)) emails)
                   {| reads := n; trace := trace w ++ map Send emails |})
        as (more & n' & Hw' & Hn' & Hfor' & Hres').
      simpl in Hw', Hn', Hfor', Hres'.
      exists (emails ++ more), n'. rewrite Hw'. rewrite map_app, <- app_assoc.
      split; [done|]. split; [lia|]. split.
      * apply Forall_app. split.
        -- eapply Forall_impl; [exact Hfor|]. intros e0 He0. exists product. split; [by left|done].
        -- eapply Forall_impl; [exact Hfor'|]. intros e0 (p & Hp & He0).
           exists p. split; [by right|]. by apply (sentFor_earlier n).
      * destruct Hres' as [->|[-> Hbad]]; [left|right; split; [done|by apply Exists_cons_tl]].
        rewrite length_app, length_map, issue_app. by rewrite <- app_assoc.
    + destruct Hres as [?|([= ->] & -> & Hbad)]; [done|].
      exists [], n. simpl. rewrite app_nil_r.
      repeat split; [done|done|]. right. split; [done|by apply Exists_cons_hd].
Qed.

Lemma POST_unauthenticated (prisma : Database) (x_api_key : option string) (w : World) :
  strictlyEqual x_api_key CRON_SECRET = false ->
  POST prisma x_api_key w = (Ok notAuthenticatedResponse, w).
Proof. intros Hauth. unfold POST. by rewrite Hauth. Qed.

(** An authenticated run, whatever its outcome. *)
Lemma POST_authenticated_emails (prisma : list ProductRow) (x_api_key : option string) (w : World) :
  strictlyEqual x_api_key CRON_SECRET = true ->
  exists emails n,
    snd (POST prisma x_api_key w)
    = {| reads := n;
         trace := trace w ++ Query (JS.setDate_back zone (clock (reads w)) 7) :: map Send emails |}
    /\ (S (reads w) <= n)%nat
    /\ Forall (fun e => exists product,
                 In product (productsAt prisma w) /\ sentFor (S (reads w)) product e)
              emails
    /\ (fst (POST prisma x_api_key w) = Ok successResponse
        \/ fst (POST prisma x_api_key w) = Throw readOfUndefined
        \/ exists reason p,
             fst (POST prisma x_api_key w) = Throw (Rejection reason)
             /\ In p (issue (S (length (trace w))) emails)
             /\ settles p = Rejected reason).
Proof.
  intros Hauth. rewrite (POST_authenticated _ _ _ Hauth).
  destruct (forOf_productStep_emails (productsAt prisma w) [] (queried w))
    as (emails & n & Hw & Hn & Hfor & Hres).
  exists emails, n. simpl in Hw, Hn, Hfor, Hres.
  destruct (forOf productStep (productsAt prisma w) [] (queried w)) as [[ps|e] w1];
    simpl in Hw, Hres; subst w1.
  - destruct Hres as [[= ->]|[? _]]; [|done].
    rewrite length_app in *. simpl in *. rewrite Nat.add_1_r in *.
    destruct (firstRejected (issue (S (length (trace w))) emails)) as [reason|] eqn:Hfirst; simpl.
    + rewrite <- app_assoc. repeat split; [done|done|]. right. right.
      apply firstRejected_Some, List.Exists_exists in Hfirst.
      destruct Hfirst as (p & Hp & Hsettles). by exists reason, p.
    + rewrite <- app_assoc. repeat split; [done|done|by left].
  - destruct Hres as [?|[[= ->] _]]; [done|]. simpl.
    rewrite <- app_assoc. repeat split; [done|done|]. right. by left.
Qed.

(** ** More about the query and the aggregation *)

Lemma sum_list_with_map {A B} (f : B -> nat) (g : A -> B) (l : list A) :
  sum_list_with f (map g l) = sum_list_with (fun x => f (g x)) l.
Proof. induction l as [|x l IH]; simpl; [done|]. by rewrite IH. Qed.

Lemma sum_list_with_le {A} (f g : A -> nat) (l : list A) :
  (forall x, (f x <= g x)%nat) -> (sum_list_with f l <= sum_list_with g l)%nat.
Proof. intros Hle. induction l as [|x l IH]; simpl; [done|]. specialize (Hle x). lia. Qed.

Lemma foldl_surveyStep_live (surveyList : list Survey) : forall st,
  numLiveSurvey (fst (foldl surveyStep st surveyList))
  = (numLiveSurvey (fst st)
     + length (List.filter (fun s => String.eqb (status s) "live") surveyList))%nat.
Proof.
  induction surveyList as [|s rest IH]; intros st; simpl.
  - lia.
  - rewrite IH. simpl. destruct (String.eqb (status s) "live"); simpl; lia.
Qed.

(** X2: the counters of an environment that comes from the query, read on
    the rows: responses are counted inside the seven-day window only,
    displays over all time, and both over the surveys that are not drafts. *)
Theorem insights_on_rows (sevenDaysAgo : JS.Date) (e : EnvironmentRow) :
  totalResponses (fst (aggregate (selectEnvironment sevenDaysAgo e)))
  = sum_list_with (fun s => length (inWindow sevenDaysAgo s)) (keptSurveys e)
  /\ totalCompletedResponses (fst (aggregate (selectEnvironment sevenDaysAgo e)))
     = sum_list_with (fun s => length (List.filter finished (inWindow sevenDaysAgo s)))
                     (keptSurveys e)
  /\ totalDisplays (fst (aggregate (selectEnvironment sevenDaysAgo e)))
     = sum_list_with (fun s => length (row_displays s)) (keptSurveys e).
Proof.
  unfold aggregate.
  destruct (foldl_surveyStep_totals
              (environment_surveys (selectEnvironment sevenDaysAgo e)) (initialInsights, []))
    as (Hc & Hd & Hr).
  rewrite Hc, Hd, Hr. simpl. rewrite !sum_list_with_map. done.
Qed.

(** X3: the counters of any environment: completed responses never exceed
    the responses, [numLiveSurvey] is the number of surveys whose status is
    the string "live", at most the number of surveys, and the payload holds
    one record per survey, in the order of the loop, under the survey's
    name. *)
Theorem insights_invariants (environment : Environment) :
  (totalCompletedResponses (fst (aggregate environment))
   <= totalResponses (fst (aggregate environment)))%nat
  /\ numLiveSurvey (fst (aggregate environment))
     = length (List.filter (fun s => String.eqb (status s) "live")
                           (environment_surveys environment))
  /\ (numLiveSurvey (fst (aggregate environment))
      <= length (environment_surveys environment))%nat
  /\ snd (aggregate environment) = map buildSurveyData (environment_surveys environment)
  /\ map name (snd (aggregate environment))
     = map survey_name (environment_surveys environment).
Proof.
  unfold aggregate.
  destruct (foldl_surveyStep_totals (environment_surveys environment) (initialInsights, []))
    as (Hc & _ & Hr).
  rewrite Hc, Hr, foldl_surveyStep_live, foldl_surveyStep_records. simpl.
  split; [|split; [done|split; [|split; [done|]]]].
  - apply sum_list_with_le. intros s. unfold completedResponses. apply filter_length_le.
  - apply filter_length_le.
  - by rewrite map_map.
Qed.

(** X4: in the record of a survey the answer of response [i] to question
    [j] sits at index [i * |questions| + j]. *)
Theorem entry_index (survey : Survey) (i j : nat) (response : Response) (question : Question) :
  responses survey !! i = Some response ->
  questions survey !! j = Some question ->
  surveyData_responses (buildSurveyData survey) !! (i * length (questions survey) + j)%nat
  = Some (entryOf response question).
Proof.
  unfold buildSurveyData; simpl. rewrite foldl_pushResponse. simpl.
  generalize (responses survey). intros rs. revert i.
  induction rs as [|r rs IH]; intros i Hi Hj; [done|].
  simpl flat_map. destruct i as [|i]; simpl in Hi.
  - injection Hi as ->. simpl. rewrite lookup_app_l.
    + by rewrite list_lookup_fmap, Hj.
    + rewrite length_map. by apply lookup_lt_Some in Hj.
  - rewrite lookup_app_r; rewrite length_map; [|simpl; lia].
    replace (S i * length (questions survey) + j - length (questions survey))%nat
      with (i * length (questions survey) + j)%nat by (simpl; lia).
    by apply IH.
Qed.

(** X5: a product with displays but no completed response has the
    completion rate 0, the number, not NaN. *)
Theorem completionRate_zero_without_completed (environment : Environment) :
  totalDisplays (fst (aggregate environment)) <> 0%nat ->
  totalCompletedResponses (fst (aggregate environment)) = 0%nat ->
  completionRate (fst (aggregate environment)) = JS.ofNat 0.
Proof.
  unfold aggregate. intros Hshown Hzero.
  destruct (environment_surveys environment) as [|s rest] eqn:Hs; [done|].
  rewrite foldl_surveyStep_rate by done. rewrite Hzero.
  unfold computeCompletionRate.
  destruct (ofNat_positive _ Hshown) as [(m & e & ->)| ->]; reflexivity.
Qed.

(** ** More about the handler *)

Lemma sendsOf_map_Send (emails : list Email) : sendsOf (map Send emails) = emails.
Proof. induction emails as [|e rest IH]; simpl; [done|]. by rewrite IH. Qed.

Lemma issue_lookup (emails : list Email) : forall start p,
  In p (issue start emails) ->
  exists k, emails !! k = Some (call p) /\ settles p = settle (start + k) (call p).
Proof.
  induction emails as [|e rest IH]; intros start p Hin; simpl in Hin; [done|].
  destruct Hin as [<-|Hin].
  - exists 0%nat. simpl. by rewrite Nat.add_0_r.
  - destruct (IH _ _ Hin) as (k & Hk & Hsettles). exists (S k). simpl.
    split; [done|]. by rewrite Nat.add_succ_r.
Qed.

(** The events of a run, whatever its outcome. *)
Lemma POST_newEvents (prisma : list ProductRow) (x_api_key : option string) (w : World) :
  exists emails,
    trace (snd (POST prisma x_api_key w))
    = trace w ++ newEvents w (snd (POST prisma x_api_key w))
    /\ newEvents w (snd (POST prisma x_api_key w))
       = (if strictlyEqual x_api_key CRON_SECRET
          then Query (JS.setDate_back zone (clock (reads w)) 7) :: map Send emails
          else [])
    /\ sendsOf (newEvents w (snd (POST prisma x_api_key w))) = emails
    /\ (reads w <= reads (snd (POST prisma x_api_key w)))%nat
    /\ Forall (fun e => exists product,
                 In product (productsAt prisma w) /\ sentFor (S (reads w)) product e)
              emails.
Proof.
  unfold newEvents. destruct (strictlyEqual x_api_key CRON_SECRET) eqn:Hauth.
  - destruct (POST_authenticated_emails prisma x_api_key w Hauth)
      as (emails & n & Hw & Hn & Hfor & _).
    exists emails. rewrite Hw. simpl. rewrite drop_app_length. simpl.
    rewrite sendsOf_map_Send. repeat split; (done || lia).
  - exists []. rewrite (POST_unauthenticated _ _ _ Hauth). simpl.
    rewrite drop_all, app_nil_r. repeat split; done.
Qed.

Lemma sendsOf_app (events more : list Event) :
  sendsOf (events ++ more) = sendsOf events ++ sendsOf more.
Proof. unfold sendsOf. apply flat_map_app. Qed.

Lemma snd_POST_authenticated (prisma : list ProductRow) (x_api_key : option string) (w : World) :
  strictlyEqual x_api_key CRON_SECRET = true ->
  snd (POST prisma x_api_key w) = snd (forOf productStep (productsAt prisma w) [] (queried w)).
Proof.
  intros Hauth. rewrite (POST_authenticated _ _ _ Hauth).
  destruct (forOf productStep (productsAt prisma w) [] (queried w)) as [[ps|e] w']; [|done].
  by destruct (firstRejected ps).
Qed.

(** The turn of one product inside a run: when no product before it stops
    the loop, the events of the run are the query, the sends for the
    products before, the sends of this turn, and the sends for the
    products after. *)
Lemma POST_turn
  (before : list ProductRow) (row : ProductRow) (after : list ProductRow)
  (x_api_key : option string) (w : World) :
  strictlyEqual x_api_key CRON_SECRET = true ->
  Forall (fun p => ~ lacksEnvironment p) (productsAt before w) ->
  exists earlier n acc,
    Forall (fun e => exists p, In p (productsAt before w) /\ sentFor (S (reads w)) p e) earlier
    /\ forall turn n' acc',
         productStep (selectProduct (JS.setDate_back zone (clock (reads w)) 7) row) acc
           {| reads := n;
              trace := trace w ++ Query (JS.setDate_back zone (clock (reads w)) 7)
                                 :: map Send earlier |}
         = (Ok acc',
            {| reads := n';
               trace := (trace w ++ Query (JS.setDate_back zone (clock (reads w)) 7)
                                   :: map Send earlier) ++ map Send turn |}) ->
         exists later,
           newEvents w (snd (POST (before ++ row :: after) x_api_key w))
           = Query (JS.setDate_back zone (clock (reads w)) 7)
             :: map Send earlier ++ map Send turn ++ map Send later
           /\ Forall (fun e => exists p, In p (productsAt after w)
                                         /\ sentFor (S (reads w)) p e) later.
Proof.
  intros Hauth Hgood.
  destruct (forOf_productStep_emails (productsAt before w) [] (queried w))
    as (earlier & n & Hw1 & Hn & Hearlier & Hres).
  simpl in Hw1, Hn, Hearlier, Hres.
  destruct Hres as [Hok|[_ Hbad]].
  2:{ exfalso. apply List.Exists_exists in Hbad. destruct Hbad as (p & Hp & Hlacks).
      rewrite List.Forall_forall in Hgood. by apply (Hgood p Hp). }
  exists earlier, n, (issue (length (trace w ++ [Query (JS.setDate_back zone (clock (reads w)) 7)]))
                            earlier).
  split; [exact Hearlier|].
  intros turn n' acc' Hstep.
  rewrite (snd_POST_authenticated _ _ _ Hauth).
  unfold productsAt, findMany. rewrite map_app. simpl map. rewrite forOf_app.
  fold (findMany (JS.setDate_back zone (clock (reads w)) 7) before).
  fold (productsAt before w).
  destruct (forOf productStep (productsAt before w) [] (queried w)) as [r1 w1].
  simpl in Hw1, Hok. subst r1 w1. rewrite <- app_assoc. simpl app.
  simpl forOf. unfold bind at 1. rewrite Hstep.
  destruct (forOf_productStep_emails
              (map (selectProduct (JS.setDate_back zone (clock (reads w)) 7)) after) acc'
              {| reads := n';
                 trace := (trace w ++ Query (JS.setDate_back zone (clock (reads w)) 7)
                                     :: map Send earlier) ++ map Send turn |})
    as (later & n'' & Hw2 & Hn'' & Hlater & _).
  simpl in Hw2, Hn'', Hlater.
  exists later. rewrite Hw2. unfold newEvents. simpl.
  rewrite <- !app_assoc. rewrite drop_app_length. simpl. split; [done|].
  assert (Hreads : (n <= n')%nat).
  { destruct (productStep_emails
                (selectProduct (JS.setDate_back zone (clock (reads w)) 7) row)
                (issue (length (trace w ++ [Query (JS.setDate_back zone (clock (reads w)) 7)]))
                       earlier)
                {| reads := n;
                   trace := trace w ++ Query (JS.setDate_back zone (clock (reads w)) 7)
                                      :: map Send earlier |})
      as (es & m & Hsnd & Hm & _).
    rewrite Hstep in Hsnd. simpl in Hsnd, Hm. injection Hsnd as -> _. exact Hm. }
  eapply Forall_impl; [exact Hlater|]. intros e (p & Hp & He).
  exists p. split; [exact Hp|]. apply (sentFor_earlier n'); [lia|exact He].
Qed.

(** C6: in a run that reaches the product (no product before it in the
    answer of the query has recipients but no production environment), a
    product with at least one recipient whose first production environment
    counts a completed response gets exactly one send at its turn, the
    weekly summary addressed to the whole list of recipients; every other
    send of the run belongs to the turn of a product before or after it,
    so that no "no live survey" email is sent for it. *)
Theorem one_weekly_summary_for_all_recipients
  (before : list ProductRow) (row : ProductRow) (after : list ProductRow)
  (environment : Environment) (others : list Environment)
  (x_api_key : option string) (w : World) :
  strictlyEqual x_api_key CRON_SECRET = true ->
  Forall (fun p => ~ lacksEnvironment p) (productsAt before w) ->
  teamMembersWithNotificationEnabled
    (selectProduct (JS.setDate_back zone (clock (reads w)) 7) row) <> [] ->
  environments (selectProduct (JS.setDate_back zone (clock (reads w)) 7) row)
  = environment :: others ->
  (0 < totalCompletedResponses (fst (aggregate environment)))%nat ->
  exists earlier notificationResponse later,
    newEvents w (snd (POST (before ++ row :: after) x_api_key w))
    = Query (JS.setDate_back zone (clock (reads w)) 7)
      :: map Send earlier
      ++ Send (WeeklySummaryNotification
                 (teamMembersWithNotificationEnabled
                    (selectProduct (JS.setDate_back zone (clock (reads w)) 7) row))
                 notificationResponse)
      :: map Send later
    /\ (exists r,
          notificationResponse
          = notificationResponseOf
              (selectProduct (JS.setDate_back zone (clock (reads w)) 7) row) environment r)
    /\ Forall (fun e => exists p, In p (productsAt before w) /\ sentFor (S (reads w)) p e)
              earlier
    /\ Forall (fun e => exists p, In p (productsAt after w) /\ sentFor (S (reads w)) p e)
              later
    /\ (~ In (selectProduct (JS.setDate_back zone (clock (reads w)) 7) row)
             (productsAt before w ++ productsAt after w) ->
        Forall (fun e =>
                  forall to,
                    e <> NoLiveSurveyNotification to
                           (selectProduct (JS.setDate_back zone (clock (reads w)) 7) row))
               (sendsOf (newEvents w (snd (POST (before ++ row :: after) x_api_key w))))).
Proof.
  intros Hauth Hgood Hsome Henv Hpos.
  destruct (POST_turn before row after x_api_key w Hauth Hgood)
    as (earlier & n & acc & Hearlier & Hturn).
  destruct (Hturn [WeeklySummaryNotification
                     (teamMembersWithNotificationEnabled
                        (selectProduct (JS.setDate_back zone (clock (reads w)) 7) row))
                     (notificationResponseOf
                        (selectProduct (JS.setDate_back zone (clock (reads w)) 7) row)
                        environment n)]
                  (S (S n)) _
                  (productStep_summary _ environment others acc _ Hsome Henv ltac:(lia)))
    as (later & Hevents & Hlater).
  exists earlier,
         (notificationResponseOf
            (selectProduct (JS.setDate_back zone (clock (reads w)) 7) row) environment n),
         later.
  rewrite Hevents.
  split; [done|]. split; [by exists n|]. split; [done|]. split; [done|].
  intros Hfresh. simpl. rewrite !sendsOf_app, !sendsOf_map_Send. simpl.
  assert (Hother : forall es products,
            Forall (fun e => exists p, In p products /\ sentFor (S (reads w)) p e) es ->
            (forall p, In p products ->
                       p <> selectProduct (JS.setDate_back zone (clock (reads w)) 7) row) ->
            Forall (fun e =>
                      forall to,
                        e <> NoLiveSurveyNotification to
                               (selectProduct (JS.setDate_back zone (clock (reads w)) 7) row))
                   es).
  { intros es products Hes Hne. eapply Forall_impl; [exact Hes|].
    intros e (p & Hp & _ & He) to ->. destruct He as (Heq & _).
    by apply (Hne p Hp). }
  apply Forall_app. split.
  - apply (Hother _ (productsAt before w)); [exact Hearlier|].
    intros p Hp ->. apply Hfresh, in_or_app. by left.
  - constructor; [done|]. rewrite sendsOf_map_Send.
    apply (Hother _ (productsAt after w)); [exact Hlater|].
    intros p Hp ->. apply Hfresh, in_or_app. by right.
Qed.


Lemma POST_query_rejected (error : string) (x_api_key : option string) (w : World) :
  strictlyEqual x_api_key CRON_SECRET = true ->
  POST (Rejects error) x_api_key w = (Throw (QueryFailure error), queried w).
Proof. intros Hauth. unfold POST. rewrite Hauth. reflexivity. Qed.

(** X6: whatever the outcome, a run leaves the earlier events as they
    were; with the right header it adds exactly one query, before any send
    and bounded seven days before its first clock reading, and after it
    only sends (none when the database rejects the query); with a wrong
    header it adds no event. *)
Theorem run_queries_once_then_sends
  (prisma : Database) (x_api_key : option string) (w : World) :
  trace (snd (POST prisma x_api_key w))
  = trace w ++ newEvents w (snd (POST prisma x_api_key w))
  /\ newEvents w (snd (POST prisma x_api_key w))
     = (if strictlyEqual x_api_key CRON_SECRET
        then Query (JS.setDate_back zone (clock (reads w)) 7)
             :: map Send (sendsOf (newEvents w (snd (POST prisma x_api_key w))))
        else [])
  /\ (reads w <= reads (snd (POST prisma x_api_key w)))%nat.
Proof.
  destruct prisma as [rows|error].
  - destruct (POST_newEvents rows x_api_key w)
      as (emails & Htrace & Hnew & Hsends & Hreads & _).
    rewrite Hsends. done.
  - destruct (strictlyEqual x_api_key CRON_SECRET) eqn:Hauth.
    + rewrite (POST_query_rejected _ _ _ Hauth). unfold newEvents, queried. simpl.
      rewrite drop_app_length. simpl. repeat split; (done || lia).
    + rewrite (POST_unauthenticated _ _ _ Hauth). unfold newEvents. simpl.
      rewrite drop_all, app_nil_r. done.
Qed.

(** X7: every email of a run is sent for a product that the query returned
    and that has recipients: the "no live survey" email only when the first
    production environment of the product counts no completed response,
    the weekly summary only when it counts one, then to the whole list of
    recipients and with the payload of that environment. *)
Theorem every_send_is_accounted_for
  (prisma : list ProductRow) (x_api_key : option string) (w : World) :
  Forall (fun e => exists product,
            In product (productsAt prisma w) /\ sentFor (S (reads w)) product e)
         (sendsOf (newEvents w (snd (POST prisma x_api_key w)))).
Proof.
  destruct (POST_newEvents prisma x_api_key w) as (emails & _ & _ & Hsends & _ & Hfor).
  by rewrite Hsends.
Qed.


(** X9: in a time zone whose offset never changes (UTC, say) and with a
    clock that never runs backwards, the week of every weekly summary
    starts no earlier than the bound of the query and ends at least seven
    days later. *)
Theorem summary_week_is_inside_the_run
  (prisma : list ProductRow) (x_api_key : option string) (w : World) (offset : Z) :
  (forall t, JS.offsetAtUTC zone t = offset) ->
  (forall t, JS.offsetAtLocal zone t = offset) ->
  (forall a b : nat, (a <= b)%nat -> clock a <= clock b) ->
  Forall (fun e =>
            match e with
            | WeeklySummaryNotification _ n =>
                JS.setDate_back zone (clock (reads w)) 7 <= lastWeekDate n
                /\ lastWeekDate n + 7 * JS.msPerDay <= currentDate n
            | NoLiveSurveyNotification _ _ => True
            end)
         (sendsOf (newEvents w (snd (POST prisma x_api_key w)))).
Proof.
  intros Hutc Hlocal Hclock.
  destruct (POST_newEvents prisma x_api_key w) as (emails & _ & _ & Hsends & _ & Hfor).
  rewrite Hsends. eapply Forall_impl; [exact Hfor|].
  intros [to p|members n] (product & _ & _ & He); [done|].
  destruct He as (_ & environment & others & r & _ & Hr & -> & _). simpl.
  pose proof (Hclock (reads w) r ltac:(lia)) as H1.
  pose proof (Hclock r (S r) ltac:(lia)) as H2.
  unfold JS.setDate_back. rewrite !Hutc, !Hlocal. lia.
Qed.

(** X10: the five outcomes of a request: the unauthenticated response
    exactly when the header is not strictly equal to the secret; otherwise
    the error of the query when the database rejects it, after the one
    query and before any send; and when the database answers, the success
    response, the TypeError of a product without production environment,
    or a rejection whose reason is that of the promise of one of the run's
    own sends. *)
Theorem run_outcomes (database : Database) (x_api_key : option string) (w : World) :
  (strictlyEqual x_api_key CRON_SECRET = false
   /\ fst (POST database x_api_key w) = Ok notAuthenticatedResponse)
  \/ (strictlyEqual x_api_key CRON_SECRET = true
      /\ ((exists error,
             database = Rejects error
             /\ POST database x_api_key w = (Throw (QueryFailure error), queried w))
          \/ (exists rows,
                database = Resolves rows
                /\ (fst (POST database x_api_key w) = Ok successResponse
                    \/ fst (POST database x_api_key w) = Throw readOfUndefined
                    \/ exists reason k e,
                         fst (POST database x_api_key w) = Throw (Rejection reason)
                         /\ newEvents w (snd (POST database x_api_key w)) !! S k
                            = Some (Send e)
                         /\ settle (length (trace w) + S k) e = Rejected reason)))).
Proof.
  destruct (strictlyEqual x_api_key CRON_SECRET) eqn:Hauth.
  - right. split; [done|]. destruct database as [rows|error].
    + right. exists rows. split; [done|].
      destruct (POST_authenticated_emails rows x_api_key w Hauth)
        as (emails & n & Hw & _ & _ & [Hok|[Hthrow|(reason & p & Hrej & Hp & Hsettles)]]).
      * by left.
      * right. by left.
      * right. right. destruct (issue_lookup _ _ _ Hp) as (k & Hk & Hsame).
        exists reason, k, (call p). split; [done|]. split.
        -- unfold newEvents. rewrite Hw. simpl. rewrite drop_app_length. simpl.
           by rewrite list_lookup_fmap, Hk.
        -- rewrite <- Hsettles, Hsame. f_equal. lia.
    + left. exists error. split; [done|]. by apply POST_query_rejected.
  - left. split; [done|]. by rewrite (POST_unauthenticated _ _ _ Hauth).
Qed.

(** X11: a product with recipients and no production environment cuts the
    run short: the sends made for the products before it stay made, their
    promises are never awaited, and no product after it is looked at. *)
Theorem throw_stops_the_loop
  (before : list ProductRow) (bad : ProductRow) (after : list ProductRow)
  (x_api_key : option string) (w : World)
  (emailSendingPromises : list Promise) (w' : World) :
  strictlyEqual x_api_key CRON_SECRET = true ->
  forOf productStep (productsAt before w) [] (queried w) = (Ok emailSendingPromises, w') ->
  lacksEnvironment (selectProduct (JS.setDate_back zone (clock (reads w)) 7) bad) ->
  POST (before ++ bad :: after) x_api_key w = (Throw readOfUndefined, w').
Proof.
  intros Hauth Hloop Hbad. rewrite (POST_authenticated _ _ _ Hauth).
  unfold productsAt, findMany in *. rewrite map_app. simpl map.
  rewrite forOf_app, Hloop. simpl forOf. unfold bind at 1.
  by rewrite productStep_throw.
Qed.

(** X12: a product with [n] recipients whose first production environment
    counts no completed response gets [n + 1] sends of the "no live
    survey" email, one to each recipient's address in the order of the
    team and then one to the list of recipients, whatever its other
    environments hold; no clock is read. *)
Theorem no_live_survey_sends
  (product : Product) (environment : Environment) (others : list Environment)
  (acc : list Promise) (w : World) :
  teamMembersWithNotificationEnabled product <> [] ->
  environments product = environment :: others ->
  totalCompletedResponses (fst (aggregate environment)) = 0%nat ->
  exists promises,
    productStep product acc w
    = (Ok (acc ++ promises),
       {| reads := reads w;
          trace := trace w
                   ++ map (fun teamMember =>
                             Send (NoLiveSurveyNotification
                                     (ToAddress (email (user teamMember))) product))
                          (teamMembersWithNotificationEnabled product)
                   ++ [Send (NoLiveSurveyNotification
                               (ToMembers (teamMembersWithNotificationEnabled product))
                               product)] |})
    /\ length promises = S (length (teamMembersWithNotificationEnabled product)).
Proof.
  intros Hsome Henv Hzero.
  exists (issue (length (trace w)) (noLiveSurveyEmails product)).
  rewrite (productStep_no_live product environment others) by done. split.
  - unfold noLiveSurveyEmails. by rewrite map_app, map_map.
  - rewrite <- (length_map call), map_call_issue. unfold noLiveSurveyEmails.
    rewrite length_app, length_map. simpl. lia.
Qed.

Lemma sum_list_with_pos {A} (f : A -> nat) (l : list A) :
  sum_list_with f l <> 0%nat <-> exists x, In x l /\ f x <> 0%nat.
Proof.
  induction l as [|y l IH]; simpl.
  - split; [done|]. by intros (x & [] & _).
  - split.
    + intros Hsum. destruct (decide (f y = 0%nat)) as [Hy|Hy].
      * destruct (proj1 IH ltac:(lia)) as (x & Hx & Hfx). exists x. split; [by right|done].
      * exists y. split; [by left|done].
    + intros (x & [->|Hx] & Hfx); [lia|].
      assert (sum_list_with f l <> 0%nat) by (apply IH; by exists x). lia.
Qed.

Lemma completed_on_rows (sevenDaysAgo : JS.Date) (e : EnvironmentRow) :
  totalCompletedResponses (fst (aggregate (selectEnvironment sevenDaysAgo e))) <> 0%nat
  <-> exists s r,
        In s (keptSurveys e) /\ In r (row_responses s)
        /\ finished r = true /\ sevenDaysAgo <= createdAt r.
Proof.
  unfold aggregate.
  destruct (foldl_surveyStep_totals
              (environment_surveys (selectEnvironment sevenDaysAgo e)) (initialInsights, []))
    as (-> & _ & _).
  simpl. rewrite sum_list_with_map, sum_list_with_pos. split.
  - intros (s & Hs & Hcount). exists s.
    unfold completedResponses in Hcount. simpl in Hcount.
    destruct (List.filter finished (selectResponses sevenDaysAgo (row_responses s)))
      as [|r rest] eqn:Hfiltered; [done|].
    assert (Hr : In r (List.filter finished (selectResponses sevenDaysAgo (row_responses s))))
      by (rewrite Hfiltered; by left).
    apply filter_In in Hr. destruct Hr as [Hr Hfinished].
    unfold selectResponses in Hr. apply filter_In in Hr. destruct Hr as [Hr Hwindow].
    exists r. repeat split; (done || lia).
  - intros (s & r & Hs & Hr & Hfinished & Hwindow). exists s. split; [done|].
    unfold completedResponses. simpl.
    assert (Hin : In r (List.filter finished (selectResponses sevenDaysAgo (row_responses s)))).
    { apply filter_In. split; [|done]. unfold selectResponses. apply filter_In.
      split; [done|]. lia. }
    destruct (List.filter finished (selectResponses sevenDaysAgo (row_responses s))); [done|].
    simpl. lia.
Qed.

(** X16: which email a product with recipients gets in a run that reaches
    it (no product before it in the answer of the query has recipients but
    no production environment), read on the rows: at its turn the weekly
    summary, and nothing else, exactly when some survey of its first
    production environment that is not a draft has a finished response
    created at or after the bound of the query, and the "no live survey"
    emails otherwise, whatever older responses, drafts or later
    environments hold. *)
Theorem email_kind_on_rows
  (before : list ProductRow) (row : ProductRow) (after : list ProductRow)
  (e : EnvironmentRow) (others : list EnvironmentRow)
  (x_api_key : option string) (w : World) :
  strictlyEqual x_api_key CRON_SECRET = true ->
  Forall (fun p => ~ lacksEnvironment p) (productsAt before w) ->
  teamMembersWithNotificationEnabled
    (selectProduct (JS.setDate_back zone (clock (reads w)) 7) row) <> [] ->
  keptEnvironments row = e :: others ->
  ((exists s r,
      In s (keptSurveys e) /\ In r (row_responses s)
      /\ finished r = true /\ JS.setDate_back zone (clock (reads w)) 7 <= createdAt r) ->
   exists earlier notificationResponse later,
     newEvents w (snd (POST (before ++ row :: after) x_api_key w))
     = Query (JS.setDate_back zone (clock (reads w)) 7)
       :: map Send earlier
       ++ Send (WeeklySummaryNotification
                  (teamMembersWithNotificationEnabled
                     (selectProduct (JS.setDate_back zone (clock (reads w)) 7) row))
                  notificationResponse)
       :: map Send later
     /\ Forall (fun e => exists p, In p (productsAt before w) /\ sentFor (S (reads w)) p e)
               earlier
     /\ Forall (fun e => exists p, In p (productsAt after w) /\ sentFor (S (reads w)) p e)
               later)
  /\ (~ (exists s r,
           In s (keptSurveys e) /\ In r (row_responses s)
           /\ finished r = true /\ JS.setDate_back zone (clock (reads w)) 7 <= createdAt r) ->
      exists earlier later,
        newEvents w (snd (POST (before ++ row :: after) x_api_key w))
        = Query (JS.setDate_back zone (clock (reads w)) 7)
          :: map Send earlier
          ++ map Send (noLiveSurveyEmails
                         (selectProduct (JS.setDate_back zone (clock (reads w)) 7) row))
          ++ map Send later
        /\ Forall (fun e => exists p, In p (productsAt before w)
                                      /\ sentFor (S (reads w)) p e) earlier
        /\ Forall (fun e => exists p, In p (productsAt after w)
                                      /\ sentFor (S (reads w)) p e) later).
Proof.
  intros Hauth Hgood Hsome Hkept.
  assert (Henv : environments (selectProduct (JS.setDate_back zone (clock (reads w)) 7) row)
                 = selectEnvironment (JS.setDate_back zone (clock (reads w)) 7) e
                   :: map (selectEnvironment (JS.setDate_back zone (clock (reads w)) 7)) others).
  { simpl. fold (keptEnvironments row). by rewrite Hkept. }
  destruct (POST_turn before row after x_api_key w Hauth Hgood)
    as (earlier & n & acc & Hearlier & Hturn).
  split.
  - intros Hfinished. apply completed_on_rows in Hfinished.
    destruct (Hturn [_] (S (S n)) _
                    (productStep_summary _ _ _ acc _ Hsome Henv Hfinished))
      as (later & Hevents & Hlater).
    eexists earlier, _, later. rewrite Hevents. split; [reflexivity|]. by split.
  - intros Hnone.
    assert (Hzero : totalCompletedResponses
                      (fst (aggregate (selectEnvironment
                                         (JS.setDate_back zone (clock (reads w)) 7) e)))
                    = 0%nat).
    { destruct (decide (totalCompletedResponses
                          (fst (aggregate (selectEnvironment
                                             (JS.setDate_back zone (clock (reads w)) 7) e)))
                        = 0%nat)) as [Hz|Hz]; [done|].
      exfalso. apply Hnone. by apply completed_on_rows. }
    destruct (Hturn (noLiveSurveyEmails
                       (selectProduct (JS.setDate_back zone (clock (reads w)) 7) row))
                    n _
                    (productStep_no_live _ _ _ acc _ Hsome Henv Hzero))
      as (later & Hevents & Hlater).
    exists earlier, later. rewrite Hevents. by split.
Qed.

End Route.

(** ** The handler on the sample data *)

(** C1: on a product with one subscribed member and no completed response
    the run sends the "no live survey" email to the member's address and
    then once more to the list of recipients: two sends for one recipient,
    where the claim allows one. *)
Theorem no_live_survey_email_also_sent_to_the_group :
  teamMembersWithNotificationEnabled Sample.quietProduct = [Sample.alice]
  /\ POST Sample.secret JS.utc Sample.clock Sample.allFulfilled Sample.atOnce [Sample.quiet] Sample.secret Sample.start
     = (Ok successResponse,
        {| reads := 1;
           trace :=
             [Query Sample.sevenDaysAgo;
              Send (NoLiveSurveyNotification (ToAddress "alice@example.com") Sample.quietProduct);
              Send (NoLiveSurveyNotification (ToMembers [Sample.alice]) Sample.quietProduct)] |}).
Proof. split; vm_compute; reflexivity. Qed.

(** C3: on a product whose row is named "Acme" the payload of the weekly
    summary carries the environment id, the two dates, the survey records
    and the insights, but its [productName] is undefined: the query does
    not select the product's name. *)
Theorem weekly_summary_payload_lacks_product_name :
  row_product_name Sample.busy = "Acme"
  /\ POST Sample.secret JS.utc Sample.clock Sample.allFulfilled Sample.atOnce [Sample.busy] Sample.secret Sample.start
     = (Ok successResponse,
        {| reads := 3;
           trace :=
             [Query Sample.sevenDaysAgo;
              Send (WeeklySummaryNotification [Sample.alice; Sample.dave]
                      (notificationResponseOf JS.utc Sample.clock Sample.busyProduct
                                              Sample.busyEnvironment 1))] |})
  /\ productName (notificationResponseOf JS.utc Sample.clock Sample.busyProduct
                                         Sample.busyEnvironment 1) = None
  /\ environmentId (notificationResponseOf JS.utc Sample.clock Sample.busyProduct
                                           Sample.busyEnvironment 1) = "env_prod"
  /\ currentDate (notificationResponseOf JS.utc Sample.clock Sample.busyProduct
                                         Sample.busyEnvironment 1) = Sample.clock 2
  /\ lastWeekDate (notificationResponseOf JS.utc Sample.clock Sample.busyProduct
                                          Sample.busyEnvironment 1)
     = Sample.clock 1 - 7 * JS.msPerDay.
Proof. repeat split; vm_compute; reflexivity. Qed.

(** C2, counterexample: with 23 finished responses and 40 displays the
    exact percentage is 57.5, which rounds to 58; the handler divides
    first, gets 57.49999999999999 after the multiplication, and stores 57. *)
Lemma completionRate_differs_from_exact_rounding :
  finishedThrough 1 [Sample.tied] = 23%nat
  /\ displaysThrough 1 [Sample.tied] = 40%nat
  /\ spec_roundedPercentage 23 40 = 58
  /\ completionRate (insightsAfter 1 [Sample.tied]) = JS.ofZ 57
  /\ completionRate (insightsAfter 1 [Sample.tied])
     <> JS.ofZ (spec_roundedPercentage (finishedThrough 1 [Sample.tied])
                                       (displaysThrough 1 [Sample.tied])).
Proof. repeat split; vm_compute; (reflexivity || discriminate). Qed.

(** C4, counterexample: a response that stores the score 0 under the
    question's id has a value in the map, yet its entry's answer is null. *)
Lemma stored_zero_is_reported_as_null :
  data (Sample.answered 0 true) !! "nps" = Some (JS.JNum (JS.ofZ 0))
  /\ surveyData_responses (buildSurveyData Sample.zeroScore)
     = [ {| entry_headline := "How likely are you to recommend us?"; answer := JS.JNull |} ]
  /\ surveyData_responses (buildSurveyData Sample.zeroScore)
     <> spec_surveyRecord Sample.zeroScore.
Proof. repeat split; vm_compute; (reflexivity || discriminate). Qed.

(** ** The theorems at work on the sample data *)

(** The spec's example: 40 after the first survey, 50 after the second. *)
Lemma completionRate_of_running_totals_example :
  completionRate (insightsAfter 1 [Sample.surveyA; Sample.surveyB]) = JS.ofZ 40
  /\ completionRate (insightsAfter 2 [Sample.surveyA; Sample.surveyB]) = JS.ofZ 50.
Proof.
  split.
  - destruct (completionRate_of_running_totals [Sample.surveyA; Sample.surveyB] 1)
      as (_ & _ & _ & Hrate & _); [simpl; lia|].
    rewrite Hrate. vm_compute. reflexivity.
  - destruct (completionRate_of_running_totals [Sample.surveyA; Sample.surveyB] 2)
      as (_ & _ & _ & Hrate & _); [simpl; lia|].
    rewrite Hrate. vm_compute. reflexivity.
Defined.

Lemma product_without_recipients_is_skipped_example :
  POST Sample.secret JS.utc Sample.clock Sample.allFulfilled Sample.atOnce
       ([Sample.busy] ++ Sample.unwatched :: [Sample.quiet]) Sample.secret Sample.start
  = POST Sample.secret JS.utc Sample.clock Sample.allFulfilled Sample.atOnce
         ([Sample.busy] ++ [Sample.quiet]) Sample.secret Sample.start.
Proof.
  apply (product_without_recipients_is_skipped
           Sample.secret JS.utc Sample.clock Sample.allFulfilled Sample.atOnce
           [Sample.busy] Sample.unwatched [Sample.quiet] Sample.secret Sample.start).
  intros sevenDaysAgo. vm_compute. reflexivity.
Defined.

Lemma unauthenticated_request_does_nothing_example :
  POST Sample.secret JS.utc Sample.clock Sample.allFulfilled Sample.atOnce
       [Sample.busy] (Some "guess") Sample.start
  = (Ok notAuthenticatedResponse, Sample.start)
  /\ POST Sample.secret JS.utc Sample.clock Sample.allFulfilled Sample.atOnce
          [Sample.busy] None Sample.start
     = (Ok notAuthenticatedResponse, Sample.start).
Proof.
  split.
  - apply (unauthenticated_request_does_nothing
             Sample.secret JS.utc Sample.clock Sample.allFulfilled Sample.atOnce [Sample.busy] (Some "guess")).
    vm_compute. reflexivity.
  - apply (unauthenticated_request_does_nothing
             Sample.secret JS.utc Sample.clock Sample.allFulfilled Sample.atOnce [Sample.busy] None).
    vm_compute. reflexivity.
Defined.

Lemma run_needs_production_environment_example :
  exists w',
    POST Sample.secret JS.utc Sample.clock Sample.allFulfilled Sample.atOnce
         [Sample.busy; Sample.homeless] Sample.secret Sample.start
    = (Throw readOfUndefined, w').
Proof.
  apply (run_needs_production_environment
           Sample.secret JS.utc Sample.clock Sample.allFulfilled Sample.atOnce
           [Sample.busy; Sample.homeless] Sample.secret Sample.start).
  - vm_compute. reflexivity.
  - apply Exists_cons_tl, Exists_cons_hd. split.
    + vm_compute. discriminate.
    + vm_compute. reflexivity.
Defined.

(** One rejected send, the first of two for the same product, fails the
    whole run although the other promise fulfils. *)
Lemma sends_awaited_jointly_example :
  exists reason w',
    POST Sample.secret JS.utc Sample.clock Sample.firstFails Sample.atOnce [Sample.quiet] Sample.secret Sample.start
    = (Throw (Rejection reason), w')
    /\ length (trace w') = 3%nat.
Proof.
  edestruct (sends_awaited_jointly
               Sample.secret JS.utc Sample.clock Sample.firstFails Sample.atOnce
               [Sample.quiet] Sample.secret Sample.start) as (Htrace & _ & Hrejected).
  - vm_compute. reflexivity.
  - vm_compute. reflexivity.
  - destruct Hrejected as (reason & Hrun & _).
    + apply Exists_cons_hd. eexists. vm_compute. reflexivity.
    + exists reason. eexists. split; [exact Hrun|]. rewrite Htrace. vm_compute. reflexivity.
Defined.

(** ** More of the theorems at work on the sample data *)

Lemma entry_index_example :
  surveyData_responses (buildSurveyData Sample.twoByTwo) !! 3%nat
  = Some {| entry_headline := "What is the main reason for your score?";
            answer := JS.JStr "Too slow" |}.
Proof.
  apply (entry_index Sample.twoByTwo 1 1 Sample.detractor Sample.why).
  - reflexivity.
  - reflexivity.
Defined.

Lemma completionRate_zero_without_completed_example :
  completionRate (fst (aggregate Sample.quietEnvironment)) = JS.ofNat 0.
Proof.
  apply (completionRate_zero_without_completed Sample.quietEnvironment).
  - vm_compute. discriminate.
  - vm_compute. reflexivity.
Defined.

Lemma summary_week_is_inside_the_run_example :
  Forall (fun e =>
            match e with
            | WeeklySummaryNotification _ n =>
                JS.setDate_back JS.utc (Sample.clock (reads Sample.start)) 7 <= lastWeekDate n
                /\ lastWeekDate n + 7 * JS.msPerDay <= currentDate n
            | NoLiveSurveyNotification _ _ => True
            end)
         (sendsOf (newEvents Sample.start
                     (snd (POST Sample.secret JS.utc Sample.clock Sample.allFulfilled Sample.atOnce
                                [Sample.busy; Sample.quiet] Sample.secret Sample.start)))).
Proof.
  apply (summary_week_is_inside_the_run
           Sample.secret JS.utc Sample.clock Sample.allFulfilled Sample.atOnce
           [Sample.busy; Sample.quiet] Sample.secret Sample.start 0).
  - intros t. reflexivity.
  - intros t. reflexivity.
  - intros a b Hab. unfold Sample.clock. lia.
Defined.

Lemma throw_stops_the_loop_example :
  exists w',
    POST Sample.secret JS.utc Sample.clock Sample.allFulfilled Sample.atOnce
         ([Sample.busy] ++ Sample.homeless :: [Sample.quiet]) Sample.secret Sample.start
    = (Throw readOfUndefined, w')
    /\ length (sendsOf (newEvents Sample.start w')) = 1%nat.
Proof.
  eexists. split.
  - eapply (throw_stops_the_loop
              Sample.secret JS.utc Sample.clock Sample.allFulfilled Sample.atOnce
              [Sample.busy] Sample.homeless [Sample.quiet] Sample.secret Sample.start).
    + vm_compute. reflexivity.
    + vm_compute. reflexivity.
    + split; [vm_compute; discriminate|vm_compute; reflexivity].
  - vm_compute. reflexivity.
Defined.

Lemma no_live_survey_sends_example :
  exists promises,
    productStep JS.utc Sample.clock Sample.allFulfilled Sample.atOnce Sample.quietProduct [] Sample.start
    = (Ok promises,
       {| reads := 0;
          trace :=
            [Send (NoLiveSurveyNotification (ToAddress "alice@example.com") Sample.quietProduct);
             Send (NoLiveSurveyNotification (ToMembers [Sample.alice]) Sample.quietProduct)] |})
    /\ length promises = 2%nat.
Proof.
  destruct (no_live_survey_sends
              JS.utc Sample.clock Sample.allFulfilled Sample.atOnce
              Sample.quietProduct Sample.quietEnvironment [] [] Sample.start)
    as (promises & Hstep & Hlength).
  - vm_compute. discriminate.
  - vm_compute. reflexivity.
  - vm_compute. reflexivity.
  - exists promises. split; [exact Hstep|exact Hlength].
Defined.

(** ** The styling panel *)

Lemma unifiedStylingEffect_invariant (s : UnifiedStyling.State) :
  implb (UnifiedStyling.allowStyleOverwrite (UnifiedStyling.unifiedStylingEffect s))
        (UnifiedStyling.unifiedStyling (UnifiedStyling.unifiedStylingEffect s)) = true.
Proof.
  unfold UnifiedStyling.unifiedStylingEffect.
  destruct (UnifiedStyling.unifiedStyling s) eqn:Hu; simpl.
  - rewrite Hu. by destruct (UnifiedStyling.allowStyleOverwrite s).
  - done.
Qed.

Lemma onSwitch_invariant (ev : UnifiedStyling.SwitchEvent) (s : UnifiedStyling.State) :
  implb (UnifiedStyling.allowStyleOverwrite s) (UnifiedStyling.unifiedStyling s) = true ->
  implb (UnifiedStyling.allowStyleOverwrite (UnifiedStyling.onSwitch ev s))
        (UnifiedStyling.unifiedStyling (UnifiedStyling.onSwitch ev s)) = true.
Proof.
  intros Hinv. destruct ev as [value|value]; simpl.
  - destruct (Bool.eqb value (UnifiedStyling.unifiedStyling s)); [done|].
    apply unifiedStylingEffect_invariant.
  - destruct (UnifiedStyling.unifiedStyling s) eqn:Hu.
    + simpl. rewrite Hu. by destruct value.
    + simpl. rewrite Hu. exact Hinv.
Qed.

(** X13: however the two switches are toggled after the panel is opened on
    any stored styling, overwriting styles is never allowed while unified
    styling is off, so [onSave] never sends that combination. *)
Theorem overwrite_only_with_unified_styling
  (styling : option UnifiedStyling.Styling) (events : list UnifiedStyling.SwitchEvent) :
  implb (UnifiedStyling.allowStyleOverwrite
           (foldl (fun s ev => UnifiedStyling.onSwitch ev s)
                  (UnifiedStyling.mount styling) events))
        (UnifiedStyling.unifiedStyling
           (foldl (fun s ev => UnifiedStyling.onSwitch ev s)
                  (UnifiedStyling.mount styling) events)) = true
  /\ (UnifiedStyling.styling_allowStyleOverwrite
        (UnifiedStyling.onSave
           (foldl (fun s ev => UnifiedStyling.onSwitch ev s)
                  (UnifiedStyling.mount styling) events))
      = Some true ->
      UnifiedStyling.styling_unifiedStyling
        (UnifiedStyling.onSave
           (foldl (fun s ev => UnifiedStyling.onSwitch ev s)
                  (UnifiedStyling.mount styling) events))
      = Some true).
Proof.
  assert (Hinv : forall s,
            implb (UnifiedStyling.allowStyleOverwrite s) (UnifiedStyling.unifiedStyling s) = true ->
            implb (UnifiedStyling.allowStyleOverwrite
                     (foldl (fun s ev => UnifiedStyling.onSwitch ev s) s events))
                  (UnifiedStyling.unifiedStyling
                     (foldl (fun s ev => UnifiedStyling.onSwitch ev s) s events)) = true).
  { induction events as [|ev rest IH]; intros s Hs; simpl; [done|].
    apply IH. by apply onSwitch_invariant. }
  specialize (Hinv (UnifiedStyling.mount styling) (unifiedStylingEffect_invariant _)).
  split; [exact Hinv|]. simpl. intros [= Hallow]. rewrite Hallow in Hinv. simpl in Hinv.
  by rewrite Hinv.
Qed.

(** X14: what [onSave] sends is stable: when the product comes back with
    exactly that styling, opening the panel and saving again sends the same
    object, provided overwriting was not allowed without unified styling
    and an enabled highlight border had a non-empty colour. *)
Theorem save_after_load_is_stable (s : UnifiedStyling.State) :
  (UnifiedStyling.allowStyleOverwrite s = true -> UnifiedStyling.unifiedStyling s = true) ->
  (UnifiedStyling.allowHighlightBorder s = true -> UnifiedStyling.highlightBorderColor s <> "") ->
  UnifiedStyling.onSave (UnifiedStyling.mount (Some (UnifiedStyling.onSave s)))
  = UnifiedStyling.onSave s.
Proof.
  intros Hoverwrite Hborder. destruct s as [u a b q i ib cb ahb hb dm bd qd id ibd cbd hbd r l ia aq].
  simpl in Hoverwrite, Hborder.
  assert (Hhb : ahb = true -> negb (String.eqb hb "") = true).
  { intros Hon. apply negb_true_iff, String.eqb_neq. by apply Hborder. }
  unfold UnifiedStyling.mount, UnifiedStyling.unifiedStylingEffect, UnifiedStyling.onSave.
  destruct u, a, ahb; simpl; rewrite ?(Hhb eq_refl); simpl; try reflexivity;
    specialize (Hoverwrite eq_refl); discriminate.
Qed.

(** X15: opening the panel on a stored styling and saving without touching
    anything does not send the styling back as it was: the highlight
    border is kept only when its light colour is a non-empty string (a
    border with only a dark colour is erased), overwriting is switched off
    when unified styling is off, and a stored roundness of 0 stays 0. *)
Theorem save_without_edits (styling : option UnifiedStyling.Styling) :
  UnifiedStyling.styling_highlightBorderColor
    (UnifiedStyling.onSave (UnifiedStyling.mount styling))
  = match UnifiedStyling.chain
            (UnifiedStyling.chain styling UnifiedStyling.styling_highlightBorderColor)
            UnifiedStyling.light with
    | Some colour =>
        if String.eqb colour "" then None
        else Some {| UnifiedStyling.light := Some colour;
                     UnifiedStyling.dark :=
                       UnifiedStyling.chain
                         (UnifiedStyling.chain styling
                            UnifiedStyling.styling_highlightBorderColor)
                         UnifiedStyling.dark |}
    | None => None
    end
  /\ UnifiedStyling.styling_allowStyleOverwrite
       (UnifiedStyling.onSave (UnifiedStyling.mount styling))
     = Some (UnifiedStyling.orElse
               (UnifiedStyling.chain styling UnifiedStyling.styling_unifiedStyling) false
             && UnifiedStyling.orElse
                  (UnifiedStyling.chain styling UnifiedStyling.styling_allowStyleOverwrite)
                  false)
  /\ UnifiedStyling.styling_roundness (UnifiedStyling.onSave (UnifiedStyling.mount styling))
     = Some (UnifiedStyling.orElse
               (UnifiedStyling.chain styling UnifiedStyling.styling_roundness) 8)
  /\ UnifiedStyling.activeQuestionId (UnifiedStyling.mount styling)
     = Some UnifiedStyling.firstPreviewQuestionId.
Proof.
  unfold UnifiedStyling.mount, UnifiedStyling.unifiedStylingEffect. simpl.
  destruct (UnifiedStyling.orElse
              (UnifiedStyling.chain styling UnifiedStyling.styling_unifiedStyling) false);
    simpl.
  - repeat split.
    destruct (UnifiedStyling.chain
                (UnifiedStyling.chain styling UnifiedStyling.styling_highlightBorderColor)
                UnifiedStyling.light) as [colour|]; simpl; [|done].
    by destruct (String.eqb colour "").
  - repeat split.
    destruct (UnifiedStyling.chain
                (UnifiedStyling.chain styling UnifiedStyling.styling_highlightBorderColor)
                UnifiedStyling.light) as [colour|]; simpl; [|done].
    by destruct (String.eqb colour "").
Qed.

Lemma save_after_load_is_stable_example :
  UnifiedStyling.onSave
    (UnifiedStyling.mount
       (Some (UnifiedStyling.onSave
                (UnifiedStyling.mount (Some UnifiedStyling.redBorder)))))
  = UnifiedStyling.onSave (UnifiedStyling.mount (Some UnifiedStyling.redBorder)).
Proof.
  apply (save_after_load_is_stable (UnifiedStyling.mount (Some UnifiedStyling.redBorder))).
  - intros _. vm_compute. reflexivity.
  - intros _. vm_compute. discriminate.
Defined.

Example save_erases_a_dark_only_border :
  UnifiedStyling.styling_highlightBorderColor UnifiedStyling.onlyDarkBorder
  = Some {| UnifiedStyling.light := None; UnifiedStyling.dark := Some "#111111" |}
  /\ UnifiedStyling.styling_highlightBorderColor
       (UnifiedStyling.onSave (UnifiedStyling.mount (Some UnifiedStyling.onlyDarkBorder)))
     = None
  /\ UnifiedStyling.styling_allowStyleOverwrite
       (UnifiedStyling.onSave (UnifiedStyling.mount (Some UnifiedStyling.onlyDarkBorder)))
     = Some false
  /\ UnifiedStyling.styling_roundness
       (UnifiedStyling.onSave (UnifiedStyling.mount (Some UnifiedStyling.onlyDarkBorder)))
     = Some 0.
Proof. repeat split; reflexivity. Qed.

Lemma email_kind_on_rows_example :
  exists earlier notificationResponse later,
    newEvents Sample.start
      (snd (POST Sample.secret JS.utc Sample.clock Sample.allFulfilled Sample.atOnce
                 ([Sample.quiet] ++ Sample.busy :: [Sample.unwatched])
                 Sample.secret Sample.start))
    = Query Sample.sevenDaysAgo
      :: map Send earlier
      ++ Send (WeeklySummaryNotification [Sample.alice; Sample.dave] notificationResponse)
      :: map Send later.
Proof.
  destruct (email_kind_on_rows
              Sample.secret JS.utc Sample.clock Sample.allFulfilled Sample.atOnce
              [Sample.quiet] Sample.busy [Sample.unwatched]
              (Sample.production [Sample.surveyRow 4 10]) []
              Sample.secret Sample.start) as [Hsummary _].
  - vm_compute. reflexivity.
  - constructor; [|constructor]. intros [_ Hnone]. vm_compute in Hnone. discriminate.
  - vm_compute. discriminate.
  - reflexivity.
  - destruct Hsummary as (earlier & notificationResponse & later & Hevents & _).
    + exists (Sample.surveyRow 4 10), (Sample.answered 9 true).
      split; [left; reflexivity|]. split; [left; reflexivity|].
      split; [reflexivity|]. vm_compute. discriminate.
    + exists earlier, notificationResponse, later. exact Hevents.
Defined.

Lemma one_weekly_summary_for_all_recipients_example :
  exists earlier notificationResponse later,
    newEvents Sample.start
      (snd (POST Sample.secret JS.utc Sample.clock Sample.allFulfilled Sample.atOnce
                 ([Sample.quiet] ++ Sample.busy :: [Sample.unwatched])
                 Sample.secret Sample.start))
    = Query Sample.sevenDaysAgo
      :: map Send earlier
      ++ Send (WeeklySummaryNotification [Sample.alice; Sample.dave] notificationResponse)
      :: map Send later.
Proof.
  destruct (one_weekly_summary_for_all_recipients
              Sample.secret JS.utc Sample.clock Sample.allFulfilled Sample.atOnce
              [Sample.quiet] Sample.busy [Sample.unwatched] Sample.busyEnvironment []
              Sample.secret Sample.start)
    as (earlier & notificationResponse & later & Hevents & _).
  - vm_compute. reflexivity.
  - constructor; [|constructor]. intros [_ Hnone]. vm_compute in Hnone. discriminate.
  - vm_compute. discriminate.
  - vm_compute. reflexivity.
  - vm_compute. lia.
  - exists earlier, notificationResponse, later. exact Hevents.
Defined.

(** C7, counterexample: a member whose weekly-summary map holds no flag at
    all is selected for the product whose id is "constructor". *)
Lemma inherited_key_counts_as_enabled :
  notificationSettings (user Sample.erin) = Some {| weeklySummary := Some ∅ |}
  /\ product_id Sample.oddProduct = "constructor"
  /\ teamMembersWithNotificationEnabled Sample.oddProduct = [Sample.erin]
  /\ ~ (exists settings flags flag,
          notificationSettings (user Sample.erin) = Some settings
          /\ weeklySummary settings = Some flags
          /\ flags !! product_id Sample.oddProduct = Some flag
          /\ JS.truthy flag = true).
Proof.
  split; [reflexivity|]. split; [reflexivity|]. split; [vm_compute; reflexivity|].
  intros (settings & flags & flag & Hsettings & Hflags & Hflag & _).
  simpl in Hsettings. injection Hsettings as <-. simpl in Hflags. injection Hflags as <-.
  by rewrite lookup_empty in Hflag.
Qed.

(** ** The edges of the JavaScript values on the sample data *)

Example inherited_answer :
  answer (entryOf (Sample.answered 9 true) Sample.oddQuestion) = JS.Builtin "toString"
  /\ answer (entryOf (Sample.answered 9 true) Sample.why) = JS.JNull.
Proof. split; vm_compute; reflexivity. Qed.

(** Across a change of the clocks, moving the date back by seven days does
    not move the time value back by seven days of milliseconds. *)
Example setDate_across_a_clock_change :
  JS.setDate_back Sample.springForward Sample.now 7
  = Sample.now - 7 * JS.msPerDay + 3600000
  /\ JS.setDate_back JS.utc Sample.now 7 = Sample.now - 7 * JS.msPerDay.
Proof. split; vm_compute; reflexivity. Qed.

(** [Promise.all] rejects with the rejection that comes first in time, not
    first in the list. *)
Example earliest_rejection_wins :
  fst (POST Sample.secret JS.utc Sample.clock Sample.bothFail Sample.secondFirst
            [Sample.quiet] Sample.secret Sample.start)
  = Throw (Rejection "connection refused")
  /\ fst (POST Sample.secret JS.utc Sample.clock Sample.bothFail Sample.atOnce
              [Sample.quiet] Sample.secret Sample.start)
     = Throw (Rejection "mailbox full").
Proof. split; vm_compute; reflexivity. Qed.

(** A query that the database rejects ends the run after the query. *)
Example rejected_query :
  POST Sample.secret JS.utc Sample.clock Sample.allFulfilled Sample.atOnce
       (Rejects "Can't reach database server") Sample.secret Sample.start
  = (Throw (QueryFailure "Can't reach database server"),
     {| reads := 1; trace := [Query Sample.sevenDaysAgo] |}).
Proof. vm_compute. reflexivity. Qed.
